(** * Reddit ads ETL pipeline: a shallow embedding of the token exchange
      (auth.py, secret.py), the warehouse loader (database.py), the
      transforms and the rate-limited API client (reddit.py), with the
      properties the specification states about them. *)

From Stdlib Require Import ZArith Ascii String DecimalString.
From stdpp Require Import gmap strings list fin_maps.

Set Warnings "-register-all".

Local Open Scope string_scope.
Local Open Scope list_scope.

(** ** Python values, exceptions and results *)

Module Py.

(** The values [json.loads] produces, except floating-point numbers, which no
    function modelled here inspects. *)
Inductive pyval :=
| PNone
| PBool (b : bool)
| PInt (z : Z)
| PStr (s : string)
| PList (l : list pyval)
| PDict (d : gmap string pyval).

(** Python truth value of a value: what [x or y] tests. *)
Definition truthy (v : pyval) : bool :=
  match v with
  | PNone => false
  | PBool b => b
  | PInt z => negb (Z.eqb z 0)
  | PStr s => negb (String.eqb s "")
  | PList l => match l with [] => false | _ => true end
  | PDict d => negb (bool_decide (d = ∅))
  end.

(** [a or b] *)
Definition py_or (a b : pyval) : pyval := if truthy a then a else b.

(** A dict with string keys whose order is never observed. *)
Abbreviation dict := (gmap string pyval).

(** [d.get(k)]: the value, or [None] when the key is absent. *)
Definition dict_get (d : dict) (k : string) : pyval := default PNone (d !! k).

(** The exceptions the modelled code raises or lets through, one constructor
    per raise site where the argument is built by the code. *)
Inductive exn :=
| KeyError (key : string)                (* a dict without the key *)
| KeyError_labels (missing : list string) (* pandas: column labels not found *)
| TypeError
| AttributeError
| ValueError (msg : string)              (* ValueError(f"...") *)
| ValueError_job (errors : string)       (* ValueError(job.errors) *)
| BadRequest (errors : string)           (* google.api_core.exceptions.BadRequest; [errors] is job.errors *)
| HTTPError_status (status : Z)          (* raised by res.raise_for_status() *)
| HTTPError_token (err : pyval)          (* requests.HTTPError(f"Error: {token['error']}") *)
| JSONDecodeError
| ExternalError (name : string).         (* any other exception of a collaborator *)

Inductive result (A : Type) :=
| Ok (a : A)
| Raise (e : exn).
Arguments Ok {A} a.
Arguments Raise {A} e.

(** State and exception monad: a computation over a state [S] returns a value
    or raises, and leaves the state it reached. *)
Definition M (S A : Type) : Type := S -> result A * S.

Definition ret {S A} (a : A) : M S A := fun s => (Ok a, s).
Definition raise {S A} (e : exn) : M S A := fun s => (Raise e, s).
Definition bind {S A B} (m : M S A) (k : A -> M S B) : M S B :=
  fun s => match m s with
           | (Ok a, s') => k a s'
           | (Raise e, s') => (Raise e, s')
           end.
Definition lift {S A} (r : result A) : M S A := fun s => (r, s).

(** [try: body finally: cleanup]: the cleanup runs on every outcome of the
    body; an exception of the cleanup replaces the body's outcome. *)
Definition try_finally {S A} (body : M S A) (cleanup : M S unit) : M S A :=
  fun s => match body s with
           | (r, s') => match cleanup s' with
                        | (Ok _, s'') => (r, s'')
                        | (Raise e, s'') => (Raise e, s'')
                        end
           end.

(** [try: body except BadRequest as exc: raise ValueError(job.errors) from exc] *)
Definition except_BadRequest {S A} (body : M S A) : M S A :=
  fun s => match body s with
           | (Raise (BadRequest errors), s') => (Raise (ValueError_job errors), s')
           | other => other
           end.

(** [s.endswith(suffix)] *)
Fixpoint endswith (s suffix : string) : bool :=
  if String.eqb s suffix then true
  else match s with
       | EmptyString => false
       | String _ s' => endswith s' suffix
       end.

(** [s[:-1]] *)
Fixpoint slice_init (s : string) : string :=
  match s with
  | EmptyString => EmptyString
  | String c EmptyString => EmptyString
  | String c s' => String c (slice_init s')
  end.

(** [sep.join(parts)] *)
Fixpoint join (sep : string) (parts : list string) : string :=
  match parts with
  | [] => ""
  | [p] => p
  | p :: ps => p +:+ sep +:+ join sep ps
  end.

End Py.
Import Py.

Declare Scope py_scope.
Delimit Scope py_scope with py.
Notation "x <- m ;; k" := (bind m (fun x => k))
  (at level 100, m at next level, right associativity) : py_scope.
Notation "m ;;; k" := (bind m (fun _ => k))
  (at level 100, right associativity) : py_scope.

(** ** database.py: schema conversion *)

Module Schema.

(** [bigquery.SchemaField(name, field_type, mode, fields)] *)
Inductive SchemaField :=
| mkSchemaField (name field_type mode : string) (fields : list SchemaField).

(** The constructor's defaults: [mode="NULLABLE"], [fields=()]. *)
Definition SchemaField_default (name field_type : string) : SchemaField :=
  mkSchemaField name field_type "NULLABLE" [].

Definition conversion_field (name : string) : SchemaField :=
  let fields :=
    [ SchemaField_default "attribution_window_day" "INTEGER";
      SchemaField_default "attribution_window_month" "INTEGER";
      SchemaField_default "attribution_window_week" "INTEGER" ] in
  let click := mkSchemaField "click_through_conversions" "RECORD" "NULLABLE" fields in
  let view := mkSchemaField "view_through_conversions" "RECORD" "NULLABLE" fields in
  mkSchemaField name "RECORD" "NULLABLE" [click; view].

Definition type_dict : gmap string string :=
  <["int" := "INTEGER"]> (<["float" := "FLOAT"]>
    (<["timestamp" := "TIMESTAMP"]> (<["str" := "STRING"]> ∅))).

(** The body of [for name, dtype in schema.items()], with the list [fields]
    built so far. *)
Fixpoint schema_to_bq_loop (items : list (string * string))
    (fields : list SchemaField) : result (list SchemaField) :=
  match items with
  | [] => Ok fields
  | (name, dtype) :: rest =>
      let '(dtype, mode) :=
        if endswith dtype "!" then (slice_init dtype, "REQUIRED")
        else (dtype, "NULLABLE") in
      match type_dict !! dtype with
      | Some ty =>
          schema_to_bq_loop rest (fields ++ [mkSchemaField name ty mode []])
      | None =>
          if String.eqb dtype "conversion"
          then schema_to_bq_loop rest (fields ++ [conversion_field name])
          else Raise (ValueError ("Field type " +:+ dtype +:+ " is not supported."))
      end
  end.

(** A schema is a dict from column name to declared type; its items come in
    insertion order. *)
Definition schema_to_bq (schema : list (string * string)) : result (list SchemaField) :=
  schema_to_bq_loop schema [].

Definition REDDITADS_SCHEMA : list (string * string) :=
  [ ("spend", "int");
    ("video_watched_50_percent", "int");
    ("video_watched_75_percent", "int");
    ("ecpm", "float");
    ("video_viewable_impressions", "int");
    ("date", "timestamp");
    ("ctr", "float");
    ("impressions", "int");
    ("video_watched_3_seconds", "int");
    ("cpc", "float");
    ("video_watched_100_percent", "int");
    ("video_started", "int");
    ("video_plays_with_sound", "int");
    ("ad_id", "str");
    ("clicks", "int");
    ("video_fully_viewable_impressions", "int");
    ("video_plays_expanded", "int");
    ("video_watched_95_percent", "int");
    ("video_watched_10_seconds", "int");
    ("video_watched_25_percent", "int");
    ("page_visit", "conversion");
    ("view_content", "conversion");
    ("search", "conversion");
    ("add_to_cart", "conversion");
    ("add_to_wishlist", "conversion");
    ("purchase", "conversion");
    ("lead", "conversion");
    ("sign_up", "conversion");
    ("custom", "conversion");
    ("ad_group_id", "str");
    ("ad_name", "str");
    ("account_id", "str");
    ("campaign_id", "str");
    ("ad_group_name", "str");
    ("campaign_name", "str") ].

End Schema.

(** ** static.py and the Python runtime *)

Inductive Reddit :=
| PROJECT_ID | SECRET_STRING | DATASET | TABLE | TMP_TABLE
| BQ_DATE_FORMAT | DEFAULT_START_DATE.

Definition value (m : Reddit) : string :=
  match m with
  | PROJECT_ID => "702739857141"
  | SECRET_STRING => "reddit_secret"
  | DATASET => "reddit"
  | TABLE => "redditads"
  | TMP_TABLE => "redditads_tmp"
  | BQ_DATE_FORMAT => "%Y-%m-%dT00:00:00Z"
  | DEFAULT_START_DATE => "2021-03-01"
  end.

(** What the code leaves to the interpreter and its standard library: the
    text an f-string gives for a member of the [str]-mixed enum, the order in
    which a [set] is iterated (a set that is not changed between two
    iterations is iterated twice in the same order), and [textwrap.indent]. *)
Record Runtime := {
  format_member : Reddit -> string;
  set_iter : gset string -> list string;
  textwrap_indent : string -> string -> string
}.

Definition LF : string := String "010"%char EmptyString.

(** A model of [textwrap.indent] for ASCII text, to run the definitions:
    the prefix goes before every line that is not only white space. *)
Definition is_linebreak (c : ascii) : bool :=
  let n := nat_of_ascii c in
  (((10 <=? n) && (n <=? 13)) || ((28 <=? n) && (n <=? 30)))%nat.

Definition is_space (c : ascii) : bool :=
  let n := nat_of_ascii c in
  (((9 <=? n) && (n <=? 13)) || ((28 <=? n) && (n <=? 32)))%nat.

Fixpoint splitlines_keepends (s : string) : list string :=
  match s with
  | EmptyString => []
  | String c s' =>
      if is_linebreak c then
        match s' with
        | String c' s'' =>
            if Ascii.eqb c "013" && Ascii.eqb c' "010"
            then String c (String c' EmptyString) :: splitlines_keepends s''
            else String c EmptyString :: splitlines_keepends s'
        | EmptyString => [String c EmptyString]
        end
      else
        match splitlines_keepends s' with
        | [] => [String c EmptyString]
        | line :: lines => String c line :: lines
        end
  end.

Fixpoint all_space (s : string) : bool :=
  match s with
  | EmptyString => true
  | String c s' => is_space c && all_space s'
  end.

Definition indent_lines (text pre : string) : string :=
  fold_right String.app ""
    (map (fun line => if all_space line then line else pre +:+ line)
         (splitlines_keepends text)).

(** One runtime, to run the definitions: a member formats as its value and a
    set is iterated in the order of [elements]. *)
Definition sample_runtime : Runtime :=
  {| format_member := value;
     set_iter := elements;
     textwrap_indent := indent_lines |}.

(** ** pandas: the DataFrame operations the code uses *)

Module Pandas.

(** A cell holds a value or is missing (NaN). *)
Abbreviation cell := (option pyval).

(** A frame is its labelled columns, left to right. *)
Abbreviation DataFrame := (list (string * list cell)).

Definition columns (df : DataFrame) : list string := map fst df.

Definition isna (c : cell) : bool :=
  match c with
  | None | Some PNone => true
  | Some _ => false
  end.

(** A record of the API is a dict in insertion order. *)
Abbreviation record := (list (string * pyval)).

Fixpoint record_get (k : string) (r : record) : cell :=
  match r with
  | [] => None
  | (k', v) :: r' => if String.eqb k k' then Some v else record_get k r'
  end.

(** Labels in order of first appearance. *)
Fixpoint fast_unique (seen l : list string) : list string :=
  match l with
  | [] => []
  | x :: l' =>
      if bool_decide (x ∈ seen) then fast_unique seen l'
      else x :: fast_unique (x :: seen) l'
  end.

(** What [pd.DataFrame] stores in a column. pandas infers a dtype for each
    column from the objects it is given and converts them to it: a column of
    integers with a gap becomes float64, its integers rounded to the nearest
    float and its gaps NaN; a column of strings keeps a [None] or makes it
    NaN, depending on the version. The conversion is a parameter of the
    model, with the one fact about it that the code relies on: a cell is null
    exactly where the record has no value or has [None]. A number in a cell is
    given by its value, whatever the dtype of its column. *)
Record Inference := {
  convert_objects : list cell -> list cell;
  convert_objects_isna :
    forall objects, map isna (convert_objects objects) = map isna objects
}.

(** [pd.DataFrame(data)] for a list of records: one column per key that
    occurs, one row per record; a column holds what pandas makes of the
    records' values for its key, NaN standing where a record lacks the key. *)
Definition DataFrame_of_records (pd : Inference) (data : list record) : DataFrame :=
  map (fun c => (c, convert_objects pd (map (record_get c) data)))
      (fast_unique [] (concat (map (map fst) data))).

(** [df.drop(columns=labels)], with the default [errors="raise"]. *)
Definition drop (labels : list string) (df : DataFrame) : result DataFrame :=
  match filter (fun l => l ∉ columns df) labels with
  | [] => Ok (filter (fun col => col.1 ∉ labels) df)
  | missing => Raise (KeyError_labels missing)
  end.

(** [df.dropna(axis="columns", how="all")] *)
Definition dropna_columns_all (df : DataFrame) : DataFrame :=
  List.filter (fun col => existsb (fun c => negb (isna c)) col.2) df.

(** The columns labelled by [key], in the order of [key]; a label that
    several columns carry selects them all. *)
Definition select_columns (df : DataFrame) (key : list string) : DataFrame :=
  concat (map (fun k => filter (fun col => col.1 = k) df) key).

(** [df[key]] for a list of labels. *)
Definition getitem_labels (df : DataFrame) (key : list string) : result DataFrame :=
  match filter (fun k => k ∉ columns df) key with
  | [] => Ok (select_columns df key)
  | missing => Raise (KeyError_labels missing)
  end.

(** [df.name]: attribute access to a column. *)
Definition getattr_column (df : DataFrame) (name : string) : result (list cell) :=
  match filter (fun col => col.1 = name) df with
  | [] => Raise AttributeError
  | col :: _ => Ok col.2
  end.

(** [df[name] = values] *)
Definition setitem (df : DataFrame) (name : string) (values : list cell) : DataFrame :=
  if bool_decide (name ∈ columns df)
  then map (fun col => if String.eqb col.1 name then (col.1, values) else col) df
  else df ++ [(name, values)].

End Pandas.

(** ** reddit.py: the report transform *)

Module Transform.
Import Pandas.

(** [pd.to_datetime] is taken as a parameter. *)
Definition transform_report (pd : Inference)
    (to_datetime : list cell -> result (list cell))
    (report : list record) : result DataFrame :=
  match drop ["ad_group_id"; "campaign_id"; "account_id"] (DataFrame_of_records pd report) with
  | Raise e => Raise e
  | Ok dropped =>
      let dataframe := dropna_columns_all dropped in
      match getattr_column dataframe "date" with
      | Raise e => Raise e
      | Ok date =>
          match to_datetime date with
          | Raise e => Raise e
          | Ok parsed => Ok (setitem dataframe "date" parsed)
          end
      end
  end.

End Transform.

(** ** database.py: the warehouse loader *)

Module Database.
Import Schema Pandas.

Record LoadJobConfig := {
  schema : list SchemaField;
  source_format : string;
  write_disposition : string
}.

(** The calls made on the BigQuery client and on the jobs it returns. *)
Inductive call :=
| create_table (table_id : string) (fields : list SchemaField) (exists_ok : bool)
| load_table_from_dataframe (table : DataFrame) (table_id : string) (job_config : LoadJobConfig)
| query (text : string)
| job_result
| delete_table (table_id : string).

(** The object: its project and its client. The client is the warehouse, an
    external service: given the calls made so far and the next call, it says
    whether the call raises. *)
Record BigQueryDatabase := {
  project_id : string;
  client : list call -> call -> option exn
}.

(** The state of a run is the sequence of calls made so far. *)
Definition do_call (self : BigQueryDatabase) (c : call) : M (list call) unit :=
  fun log =>
    (match client self log c with
     | Some e => Raise e
     | None => Ok tt
     end, log ++ [c]).

Local Open Scope py_scope.

Definition ensure_table (self : BigQueryDatabase) (schema : list (string * string))
    (table_id : string) : M (list call) unit :=
  fields <- lift (schema_to_bq schema) ;;
  do_call self (create_table table_id fields true).

Definition insert_cols_list : gset string := list_to_set (map fst REDDITADS_SCHEMA).

Definition keys : gset string :=
  {[ "date" ]} ∪ {[ "ad_id" ]} ∪ {[ "ad_group_id" ]} ∪ {[ "account_id" ]} ∪ {[ "campaign_id" ]}.

Definition update_cols_list : gset string := insert_cols_list ∖ keys.

Definition update_cols (rt : Runtime) : string :=
  join ("," +:+ LF) (map (fun c => c +:+ " = tmp." +:+ c) (set_iter rt update_cols_list)).

Definition insert_cols (rt : Runtime) : string :=
  join ("," +:+ LF) (set_iter rt insert_cols_list).

Definition value_cols (rt : Runtime) : string :=
  join ("," +:+ LF) (map (fun c => "tmp." +:+ c) (set_iter rt insert_cols_list)).

Definition join_cols (rt : Runtime) : string :=
  join (LF +:+ "and ") (map (fun c => "old." +:+ c +:+ " = tmp." +:+ c) (set_iter rt keys)).

(** The f-string of [merge_tables], as a function of what it interpolates. *)
Definition query_text (indent : string -> string)
    (table_id tmp_table_id join_cols update_cols insert_cols value_cols : string) : string :=
  LF +:+
  "        merge " +:+ table_id +:+ " as old" +:+ LF +:+
  "        using " +:+ tmp_table_id +:+ " as tmp" +:+ LF +:+
  "            on " +:+ indent join_cols +:+ LF +:+
  "        when matched then" +:+ LF +:+
  "            update set" +:+ LF +:+
  "                " +:+ indent update_cols +:+ LF +:+
  "        when not matched then" +:+ LF +:+
  "            insert (" +:+ LF +:+
  "                " +:+ indent insert_cols +:+ LF +:+
  "            )" +:+ LF +:+
  "            values (" +:+ LF +:+
  "                " +:+ indent value_cols +:+ LF +:+
  "            )" +:+ LF +:+
  "        ".

Definition destination_id (rt : Runtime) (self : BigQueryDatabase) : string :=
  project_id self +:+ "." +:+ format_member rt DATASET +:+ "." +:+ format_member rt TABLE.

Definition merge_query (rt : Runtime) (self : BigQueryDatabase) (tmp_table_id : string) : string :=
  let indent := fun text => textwrap_indent rt text "        " in
  query_text indent (destination_id rt self) tmp_table_id
    (join_cols rt) (update_cols rt) (insert_cols rt) (value_cols rt).

Definition merge_tables (rt : Runtime) (self : BigQueryDatabase)
    (tmp_table_id : string) : M (list call) unit :=
  let table_id := destination_id rt self in
  ensure_table self REDDITADS_SCHEMA table_id ;;;
  do_call self (query (merge_query rt self tmp_table_id)) ;;;
  except_BadRequest (do_call self job_result).

Definition save_new_table (self : BigQueryDatabase) (table : DataFrame)
    (table_id : string) : M (list call) string :=
  fields <- lift (schema_to_bq REDDITADS_SCHEMA) ;;
  let job_config :=
    {| schema := fields;
       source_format := "PARQUET";
       write_disposition := "WRITE_TRUNCATE" |} in
  table <- lift (getitem_labels table (map fst REDDITADS_SCHEMA)) ;;
  do_call self (load_table_from_dataframe table table_id job_config) ;;;
  except_BadRequest (do_call self job_result) ;;;
  ret table_id.

Definition staging_id (rt : Runtime) (self : BigQueryDatabase) : string :=
  project_id self +:+ "." +:+ format_member rt DATASET +:+ "." +:+ format_member rt TMP_TABLE.

Definition save_table (rt : Runtime) (self : BigQueryDatabase)
    (table : DataFrame) : M (list call) unit :=
  let tmp_table_id := staging_id rt self in
  save_new_table self table tmp_table_id ;;;
  try_finally (merge_tables rt self tmp_table_id)
              (do_call self (delete_table tmp_table_id)).

End Database.

(** ** auth.py and secret.py: the token exchange *)

Module Auth.

(** [requests.post(url, auth=, headers=, data=, timeout=)] *)
Record Request := {
  url : string;
  auth : pyval * pyval;
  headers : list (string * string);
  data : dict;
  timeout : Z
}.

(** A response: its status, and what [res.json()] gives. *)
Record Response := {
  status_code : Z;
  json : result pyval
}.

(** What the run does to the outside: HTTP posts and secret manager calls. *)
Inductive io :=
| post (req : Request)
| access_secret_version
| add_secret_version (payload : pyval).

(** The outside: the token endpoint, and whether the secret manager accepts
    a new version. *)
Record Env := {
  requests_post : Request -> result Response;
  add_secret_version_outcome : pyval -> option exn
}.

(** Objects are held in a heap and named by their index, so that a dict
    changed in place is changed for every holder. [versions] are the
    payloads of the secret, newest first, each as the value it parses to. *)
Record world := {
  heap : list pyval;
  versions : list pyval;
  trace : list io
}.

Definition loc := nat.

Definition alloc (v : pyval) : M world loc :=
  fun w => (Ok (length (heap w)),
            {| heap := heap w ++ [v]; versions := versions w; trace := trace w |}).

Definition deref (l : loc) : M world pyval :=
  fun w => match heap w !! l with
           | Some v => (Ok v, w)
           | None => (Raise (ExternalError "dangling reference"), w)
           end.

Definition store (l : loc) (v : pyval) : M world unit :=
  fun w => (Ok tt, {| heap := <[l := v]> (heap w); versions := versions w; trace := trace w |}).

Definition emit (e : io) : M world unit :=
  fun w => (Ok tt, {| heap := heap w; versions := versions w; trace := trace w ++ [e] |}).

(** [obj[key]] for a string key *)
Definition py_getitem (obj : pyval) (key : string) : result pyval :=
  match obj with
  | PDict d => match d !! key with
               | Some v => Ok v
               | None => Raise (KeyError key)
               end
  | _ => Raise TypeError
  end.

(** [obj[key] = v] for a string key: the object after the assignment *)
Definition py_setitem (obj : pyval) (key : string) (v : pyval) : result pyval :=
  match obj with
  | PDict d => Ok (PDict (<[key := v]> d))
  | _ => Raise TypeError
  end.

(** [s in text] for strings *)
Fixpoint str_contains (sub text : string) : bool :=
  if String.prefix sub text then true
  else match text with
       | EmptyString => false
       | String _ text' => str_contains sub text'
       end.

(** ["error" in token] *)
Definition contains_error (token : pyval) : result bool :=
  match token with
  | PDict d => Ok (bool_decide (is_Some (d !! "error")))
  | PList l => Ok (existsb (fun v => match v with PStr s => String.eqb s "error" | _ => false end) l)
  | PStr s => Ok (str_contains "error" s)
  | _ => Raise TypeError
  end.

(** [token.get(key)] *)
Definition py_get (token : pyval) (key : string) : result pyval :=
  match token with
  | PDict d => Ok (dict_get d key)
  | _ => Raise AttributeError
  end.

Local Open Scope py_scope.

(** secret.py *)
Definition read_token : M world loc :=
  emit access_secret_version ;;;
  fun w => match versions w with
           | [] => (Raise (ExternalError "NotFound"), w)
           | latest :: _ => alloc latest w
           end.

Definition save_token (env : Env) (config : loc) : M world unit :=
  payload <- deref config ;;
  emit (add_secret_version payload) ;;;
  match add_secret_version_outcome env payload with
  | Some e => raise e
  | None =>
      fun w => (Ok tt, {| heap := heap w; versions := payload :: versions w; trace := trace w |})
  end.

(** [res.raise_for_status()] *)
Definition raise_for_status (res : Response) : M world unit :=
  if (400 <=? status_code res)%Z && (status_code res <? 600)%Z
  then raise (HTTPError_status (status_code res))
  else ret tt.

(** The request [make_request] posts. *)
Definition access_token_request (client_id client_secret : pyval) (data : dict) : Request :=
  {| url := "https://www.reddit.com/api/v1/access_token";
     auth := (client_id, client_secret);
     headers := [("User-Agent", "Data Extraction")];
     data := data;
     timeout := 10 |}.

Definition make_request (env : Env) (config : loc) (data : dict) : M world loc :=
  cfg <- deref config ;;
  client_id <- lift (py_getitem cfg "client_id") ;;
  client_secret <- lift (py_getitem cfg "client_secret") ;;
  let req := access_token_request client_id client_secret data in
  emit (post req) ;;;
  res <- lift (requests_post env req) ;;
  raise_for_status res ;;;
  token <- lift (json res) ;;
  has_error <- lift (contains_error token) ;;
  if has_error : bool then
    err <- lift (py_getitem token "error") ;;
    raise (HTTPError_token err)
  else
    new_refresh <- lift (py_get token "refresh_token") ;;
    cfg <- deref config ;;
    cfg <- lift (py_setitem cfg "refresh_token"
                   (py_or new_refresh (dict_get data "refresh_token"))) ;;
    store config cfg ;;;
    new_access <- lift (py_get token "access_token") ;;
    cfg <- deref config ;;
    cfg <- lift (py_setitem cfg "access_token"
                   (py_or new_access (dict_get data "access_token"))) ;;
    store config cfg ;;;
    save_token env config ;;;
    ret config.

(** A positional argument of a call: a reference to an object or a dict
    literal built by the caller. *)
Inductive pyarg :=
| ArgRef (l : loc)
| ArgDict (d : dict).

(** [self.make_request] called with the positional arguments [args]: Python binds the positional arguments to
    [(config, data)] and raises [TypeError] when one is missing or there is
    one too many. *)
Definition call_make_request (env : Env) (args : list pyarg) : M world loc :=
  match args with
  | [ArgRef config; ArgDict data] => make_request env config data
  | _ => raise TypeError
  end.

Record RedditAuth := { config : loc }.

(** The [data] dict of [get_token]. *)
Definition authorization_code_grant (code : string) (redirect_uri : pyval) : dict :=
  <["grant_type" := PStr "authorization_code"]>
    (<["code" := PStr code]> (<["redirect_uri" := redirect_uri]> ∅)).

Definition get_token (env : Env) (self : RedditAuth) (code : string) : M world loc :=
  cfg <- deref (config self) ;;
  redirect_uri <- lift (py_getitem cfg "redirect_url") ;;
  let data := authorization_code_grant code redirect_uri in
  call_make_request env [ArgDict data].

(** The [data] dict of [refresh_token]. *)
Definition refresh_grant (refresh_token : pyval) : dict :=
  <["grant_type" := PStr "refresh_token"]> (<["refresh_token" := refresh_token]> ∅).

Definition refresh_token (env : Env) : M world loc :=
  config <- read_token ;;
  cfg <- deref config ;;
  refresh_token <- lift (py_getitem cfg "refresh_token") ;;
  let data := refresh_grant refresh_token in
  call_make_request env [ArgRef config; ArgDict data].

(** [RedditAuth.__init__] *)
Definition init (env : Env) : M world RedditAuth :=
  config <- refresh_token env ;;
  ret {| config := config |}.

End Auth.

(** ** reddit.py: the transforms, on frames *)

Module Lookups.
Import Pandas.

(** [mapping.get(label)] for a renaming dict, written in insertion order. *)
Fixpoint mapping_get (label : string) (mapping : list (string * string)) : option string :=
  match mapping with
  | [] => None
  | (old, new) :: mapping' =>
      if String.eqb label old then Some new else mapping_get label mapping'
  end.

(** [df.rename(columns=mapping)]: a column whose label is a key of the
    mapping takes the mapped label, the others keep theirs. *)
Definition rename (mapping : list (string * string)) (df : DataFrame) : DataFrame :=
  map (fun col => (default col.1 (mapping_get col.1 mapping), col.2)) df.

(** The steps of [transform_report] after [pd.DataFrame(report)]. *)
Definition transform_report_frame (to_datetime : list cell -> result (list cell))
    (frame : DataFrame) : result DataFrame :=
  match drop ["ad_group_id"; "campaign_id"; "account_id"] frame with
  | Raise e => Raise e
  | Ok dropped =>
      let dataframe := dropna_columns_all dropped in
      match getattr_column dataframe "date" with
      | Raise e => Raise e
      | Ok date =>
          match to_datetime date with
          | Raise e => Raise e
          | Ok parsed => Ok (setitem dataframe "date" parsed)
          end
      end
  end.

(** The steps of [transform_ads] after [pd.DataFrame(ads)]. *)
Definition transform_ads_frame (frame : DataFrame) : result DataFrame :=
  match getitem_labels frame ["id"; "ad_group_id"; "name"] with
  | Raise e => Raise e
  | Ok dataframe => Ok (rename [("id", "ad_id"); ("name", "ad_name")] dataframe)
  end.

Definition transform_ads (pd : Inference) (ads : list record) : result DataFrame :=
  transform_ads_frame (DataFrame_of_records pd ads).

(** The steps of [transform_ad_groups] after [pd.DataFrame(ad_groups)]. *)
Definition transform_ad_groups_frame (frame : DataFrame) : result DataFrame :=
  match getitem_labels frame ["id"; "account_id"; "campaign_id"; "name"] with
  | Raise e => Raise e
  | Ok dataframe =>
      Ok (rename [("id", "ad_group_id"); ("name", "ad_group_name")] dataframe)
  end.

Definition transform_ad_groups (pd : Inference) (ad_groups : list record) : result DataFrame :=
  transform_ad_groups_frame (DataFrame_of_records pd ad_groups).

(** The steps of [transform_campagins] after [pd.DataFrame(campaigns)]. *)
Definition transform_campagins_frame (frame : DataFrame) : result DataFrame :=
  match getitem_labels frame ["id"; "name"] with
  | Raise e => Raise e
  | Ok dataframe =>
      Ok (rename [("id", "campaign_id"); ("name", "campaign_name")] dataframe)
  end.

Definition transform_campagins (pd : Inference) (campaigns : list record) : result DataFrame :=
  transform_campagins_frame (DataFrame_of_records pd campaigns).

End Lookups.

(** The name of a field. *)
Definition field_name (f : Schema.SchemaField) : string :=
  match f with
  | Schema.mkSchemaField name _ _ _ => name
  end.

(** ** reddit.py: the API client and the run *)

Module Api.
Import Pandas Lookups.

(** JSON as a data endpoint returns it: an object keeps its members in
    order (their keys distinct), which is the order of the columns that
    [pd.DataFrame] makes of them. *)
Inductive json :=
| JNull
| JBool (b : bool)
| JInt (z : Z)
| JStr (s : string)
| JList (items : list json)
| JObj (members : list (string * json)).

(** The Python value of a JSON value, as a cell of a frame holds it. *)
Fixpoint to_pyval (j : json) : pyval :=
  match j with
  | JNull => PNone
  | JBool b => PBool b
  | JInt z => PInt z
  | JStr s => PStr s
  | JList items => PList (map to_pyval items)
  | JObj members =>
      PDict (list_to_map (map (fun '(k, v) => (k, to_pyval v)) members))
  end.

(** [requests.get(url, params=, data=, headers=, timeout=)] *)
Record GetRequest := {
  url : string;
  params : option (list (string * pyval));
  data : option pyval;
  headers : list (string * string);
  timeout : Z
}.

Record Response := {
  status_code : Z;
  json_body : result json
}.

(** The argument of [click.DateTime]. *)
Record datetime := {
  year : Z; month : Z; day : Z;
  hour : Z; minute : Z; second : Z
}.

(** The outside of a run: the token endpoint and the secret manager, the
    data endpoints, the warehouse client that [bigquery.Client] gives for a
    project, and the library functions the run leaves to pandas and to the
    interpreter ([str] of a list or dict, [strftime], [pd.to_datetime],
    the conversion [pd.DataFrame] makes of a column, [pd.DataFrame] on data
    that is not a list of objects, [pd.merge], [sort_values]). *)
Record Env := {
  auth_env : Auth.Env;
  requests_get : GetRequest -> result Response;
  bigquery_Client : string -> result (list Database.call -> Database.call -> option exn);
  runtime : Runtime;
  py_repr : pyval -> string;
  strftime : datetime -> string -> string;
  to_datetime : list cell -> result (list cell);
  pd_columns : Inference;
  pd_DataFrame : json -> result DataFrame;
  pd_merge : DataFrame -> DataFrame -> string -> result DataFrame;
  sort_values : DataFrame -> string -> result DataFrame
}.

(** The state of a run: the token exchange's world, the requests sent to the
    data endpoints, the calls made on the warehouse, and the exceptions
    handed to [logging.exception]. *)
Record world := {
  auth : Auth.world;
  gets : list GetRequest;
  calls : list Database.call;
  logged : list exn
}.

Definition in_auth {A} (m : M Auth.world A) : M world A :=
  fun w => let '(r, a) := m (auth w) in
           (r, {| auth := a; gets := gets w; calls := calls w; logged := logged w |}).

Definition in_warehouse {A} (m : M (list Database.call) A) : M world A :=
  fun w => let '(r, c) := m (calls w) in
           (r, {| auth := auth w; gets := gets w; calls := c; logged := logged w |}).

Definition emit_get (req : GetRequest) : M world unit :=
  fun w => (Ok tt, {| auth := auth w; gets := gets w ++ [req];
                      calls := calls w; logged := logged w |}).

(** [logging.exception(exc)] *)
Definition logging_exception (exc : exn) : M world unit :=
  fun w => (Ok tt, {| auth := auth w; gets := gets w;
                      calls := calls w; logged := logged w ++ [exc] |}).

(** What an f-string puts for a value: [str(v)]. *)
Definition py_str (repr : pyval -> string) (v : pyval) : string :=
  match v with
  | PNone => "None"
  | PBool true => "True"
  | PBool false => "False"
  | PInt z => NilZero.string_of_int (Z.to_int z)
  | PStr s => s
  | PList _ | PDict _ => repr v
  end.

Record RedditApi := {
  base : string;
  account_id : pyval;
  api_headers : list (string * string)
}.

Local Open Scope py_scope.

(** [RedditApi.__init__] *)
Definition RedditApi_init (env : Env) : M world RedditApi :=
  auth <- in_auth (Auth.init (auth_env env)) ;;
  config <- in_auth (Auth.deref (Auth.config auth)) ;;
  account_id <- lift (Auth.py_getitem config "account_id") ;;
  access_token <- lift (Auth.py_getitem config "access_token") ;;
  ret {| base := "https://ads-api.reddit.com/api/v2.0";
         account_id := account_id;
         api_headers :=
           [ ("Authorization", "bearer " +:+ py_str (py_repr env) access_token);
             ("User-Agent", "Turing Data Extraction") ] |}.

(** [res.raise_for_status()] *)
Definition raise_for_status (res : Response) : M world unit :=
  if (400 <=? status_code res)%Z && (status_code res <? 600)%Z
  then raise (HTTPError_status (status_code res))
  else ret tt.

(** [payload[key]] for a string key *)
Definition json_getitem (payload : json) (key : string) : result json :=
  match payload with
  | JObj members =>
      match filter (fun member => member.1 = key) members with
      | member :: _ => Ok member.2
      | [] => Raise (KeyError key)
      end
  | _ => Raise TypeError
  end.

(** The request [make_request] sends for a resource. *)
Definition api_request (env : Env) (self : RedditApi) (resource : string)
    (data : option pyval) (params : option (list (string * pyval))) : GetRequest :=
  {| url := base self +:+ "/accounts/" +:+ py_str (py_repr env) (account_id self)
              +:+ "/" +:+ resource;
     params := params;
     data := data;
     headers := api_headers self;
     timeout := 10 |}.

(** The body of [make_request]; its decorators, [sleep_and_retry] and
    [limits(calls=1, period=1)], are in [RateLimit] below. *)
Definition make_request (env : Env) (self : RedditApi) (resource : string)
    (data : option pyval) (params : option (list (string * pyval))) : M world json :=
  let req := api_request env self resource data params in
  emit_get req ;;;
  res <- lift (requests_get env req) ;;
  raise_for_status res ;;;
  payload <- lift (json_body res) ;;
  lift (json_getitem payload "data").

(** What [make_request] reads off the answer to a request: the [data] of
    the envelope, or the exception of the first step that fails. *)
Definition request_outcome (env : Env) (req : GetRequest) : result json :=
  match requests_get env req with
  | Raise e => Raise e
  | Ok res =>
      if (400 <=? status_code res)%Z && (status_code res <? 600)%Z
      then Raise (HTTPError_status (status_code res))
      else match json_body res with
           | Raise e => Raise e
           | Ok payload => json_getitem payload "data"
           end
  end.

(** The [params] of [get_reports]. *)
Definition report_params (env : Env) (start_date : datetime) : list (string * pyval) :=
  [ ("starts_at", PStr (strftime env start_date (value BQ_DATE_FORMAT)));
    ("group_by", PList [PStr "date"; PStr "ad_id"]) ].

Definition get_reports (env : Env) (self : RedditApi) (start_date : datetime) : M world json :=
  make_request env self "reports" None (Some (report_params env start_date)).

Definition get_ad_groups (env : Env) (self : RedditApi) : M world json :=
  make_request env self "ad_groups" None None.

Definition get_ads (env : Env) (self : RedditApi) : M world json :=
  make_request env self "ads" None None.

Definition get_campaigns (env : Env) (self : RedditApi) : M world json :=
  make_request env self "campaigns" None None.

(** The records of a list of objects. *)
Definition as_record (item : json) : option record :=
  match item with
  | JObj members => Some (map (fun '(k, v) => (k, to_pyval v)) members)
  | _ => None
  end.

Fixpoint as_records (items : list json) : option (list record) :=
  match items with
  | [] => Some []
  | item :: items' =>
      match as_record item, as_records items' with
      | Some r, Some rs => Some (r :: rs)
      | _, _ => None
      end
  end.

(** [pd.DataFrame(data)] for what an endpoint returned. *)
Definition DataFrame_of_json (env : Env) (data : json) : result DataFrame :=
  match data with
  | JList items =>
      match as_records items with
      | Some records => Ok (DataFrame_of_records (pd_columns env) records)
      | None => pd_DataFrame env data
      end
  | _ => pd_DataFrame env data
  end.

Definition transform (env : Env) (steps : DataFrame -> result DataFrame)
    (data : json) : M world DataFrame :=
  frame <- lift (DataFrame_of_json env data) ;;
  lift (steps frame).

Definition get_result (env : Env) (api : RedditApi) (start_date : datetime)
    : M world DataFrame :=
  report <- get_reports env api start_date ;;
  ads <- get_ads env api ;;
  ad_groups <- get_ad_groups env api ;;
  campaigns <- get_campaigns env api ;;
  report_df <- transform env (transform_report_frame (to_datetime env)) report ;;
  ads_df <- transform env transform_ads_frame ads ;;
  ad_groups_df <- transform env transform_ad_groups_frame ad_groups ;;
  campaigns_df <- transform env transform_campagins_frame campaigns ;;
  result <- lift (pd_merge env report_df ads_df "ad_id") ;;
  result <- lift (pd_merge env result ad_groups_df "ad_group_id") ;;
  result <- lift (pd_merge env result campaigns_df "campaign_id") ;;
  result <- lift (sort_values env result "date") ;;
  ret result.

(** The four requests of [get_result], in the order it sends them. *)
Definition result_requests (env : Env) (api : RedditApi) (start_date : datetime)
    : list GetRequest :=
  [ api_request env api "reports" None (Some (report_params env start_date));
    api_request env api "ads" None None;
    api_request env api "ad_groups" None None;
    api_request env api "campaigns" None None ].

(** The endpoint answers a request with an envelope whose [data] is [d]. *)
Definition responds (env : Env) (req : GetRequest) (d : json) : Prop :=
  exists res payload,
    requests_get env req = Ok res /\
    ~ (400 <= status_code res < 600)%Z /\
    json_body res = Ok payload /\
    json_getitem payload "data" = Ok d.

(** [requests.exceptions.HTTPError] *)
Definition is_HTTPError (e : exn) : bool :=
  match e with
  | HTTPError_status _ | HTTPError_token _ => true
  | _ => false
  end.

(** [try: body except HTTPError as exc: handler(exc)] *)
Definition try_except_HTTPError {A} (body : M world A) (handler : exn -> M world A)
    : M world A :=
  fun w => match body w with
           | (Raise e, w') => if is_HTTPError e then handler e w' else (Raise e, w')
           | done => done
           end.

(** [BigQueryDatabase.__init__] *)
Definition BigQueryDatabase_init (env : Env) (project_id : string)
    : M world Database.BigQueryDatabase :=
  client <- lift (bigquery_Client env project_id) ;;
  ret {| Database.project_id := project_id; Database.client := client |}.

(** The [try] statement of [main]. *)
Definition main_try (env : Env) (db : Database.BigQueryDatabase) (api : RedditApi)
    (start_date : datetime) : M world unit :=
  try_except_HTTPError
    (results <- get_result env api start_date ;;
     in_warehouse (Database.save_table (runtime env) db results))
    logging_exception.

Definition main (env : Env) (project_id : string) (start_date : datetime) : M world unit :=
  db <- BigQueryDatabase_init env project_id ;;
  api <- RedditApi_init env ;;
  main_try env db api start_date.

End Api.

(** ** The ratelimit package: the decorators of [RedditApi.make_request] *)

Module RateLimit.
Import Api.

Local Open Scope Z_scope.

(** Time is what [time.monotonic] reads, counted in ticks, [second] of them
    to the second. The clock moves while a request is under way and while
    the thread sleeps: how long a request takes, given the requests sent
    before it, and how long [time.sleep(secs)] lasts when called at a given
    time are left to the outside. *)
Record Clock := {
  second : Z;
  request_time : list GetRequest -> GetRequest -> Z;
  sleep_time : Z -> Z -> Z
}.

(** The state of a [RateLimitDecorator] object. *)
Record RateLimitDecorator := {
  clamped_calls : Z;
  period : Z;
  last_reset : Z;
  num_calls : Z
}.



(** [__period_remaining] *)
Definition period_remaining (self : RateLimitDecorator) (clock : Z) : Z :=
  let elapsed := clock - last_reset self in
  period self - elapsed.

(** The state of a timed run: the clock, the decorator object (made once,
    in the body of the class, and so shared by every instance), the clock's
    reading at each entry of the decorated function, the sleeps asked for,
    and the world of the run. *)
Record timed := {
  now : Z;
  limiter : RateLimitDecorator;
  entered : list Z;
  slept : list Z;
  run : Api.world
}.

(** What a call of the rate-limited function gives: what the function
    returned or raised, or the decorator's own exception. *)
Inductive attempt (A : Type) :=
| Returned (r : result A)
| RateLimitException (message : string) (period_remaining : Z).
Arguments Returned {A} r.
Arguments RateLimitException {A} message period_remaining.

(** The wrapper of [RateLimitDecorator.__call__]. *)
Definition limited {A} (func : timed -> result A * timed) (t : timed)
    : attempt A * timed :=
  let self := limiter t in
  let remaining := period_remaining self (now t) in
  let self :=
    if remaining <=? 0
    then {| clamped_calls := clamped_calls self; period := period self;
            last_reset := now t; num_calls := 0 |}
    else self in
  let self :=
    {| clamped_calls := clamped_calls self; period := period self;
       last_reset := last_reset self; num_calls := num_calls self + 1 |} in
  let t := {| now := now t; limiter := self; entered := entered t;
              slept := slept t; run := run t |} in
  if clamped_calls self <? num_calls self
  then (RateLimitException "too many calls" remaining, t)
  else let '(r, t') := func t in (Returned r, t').

(** [time.sleep(secs)] *)
Definition sleep (clock : Clock) (secs : Z) (t : timed) : result unit * timed :=
  if secs <? 0
  then (Raise (ValueError "sleep length must be non-negative"), t)
  else (Ok tt,
        {| now := now t + sleep_time clock (now t) secs; limiter := limiter t;
           entered := entered t; slept := slept t ++ [secs]; run := run t |}).

(** The wrapper of [sleep_and_retry]: [while True], with fuel for the turns
    of the loop; [None] when the fuel runs out. *)
Fixpoint sleep_and_retry {A} (clock : Clock) (fuel : nat)
    (func : timed -> attempt A * timed) (t : timed) : option (result A) * timed :=
  match fuel with
  | O => (None, t)
  | S fuel' =>
      match func t with
      | (Returned r, t') => (Some r, t')
      | (RateLimitException _ remaining, t') =>
          match sleep clock remaining t' with
          | (Ok _, t'') => sleep_and_retry clock fuel' func t''
          | (Raise e, t'') => (Some (Raise e), t'')
          end
      end
  end.

(** The function the decorators wrap: the body of [make_request], entered at
    the time the clock reads and lasting as long as its request. *)
Definition make_request_body (clock : Clock) (env : Env) (self : RedditApi)
    (resource : string) (data : option pyval) (params : option (list (string * pyval)))
    (t : timed) : result json * timed :=
  let '(r, w) := Api.make_request env self resource data params (run t) in
  (r, {| now := now t + request_time clock (gets (run t))
                         (api_request env self resource data params);
         limiter := limiter t;
         entered := entered t ++ [now t];
         slept := slept t;
         run := w |}).

(** [RedditApi.make_request] as decorated:
    [@sleep_and_retry @limits(calls=1, period=1)]. *)
Definition make_request (clock : Clock) (fuel : nat) (env : Env) (self : RedditApi)
    (resource : string) (data : option pyval) (params : option (list (string * pyval)))
    : timed -> option (result json) * timed :=
  sleep_and_retry clock fuel
    (limited (make_request_body clock env self resource data params)).








End RateLimit.

(** ** Terms of the specification *)

Module Spec.

(** The scalar types of a Schema Descriptor and their destination types. *)
Definition scalar_types : list (string * string) :=
  [ ("int", "INTEGER"); ("float", "FLOAT");
    ("timestamp", "TIMESTAMP"); ("str", "STRING") ].

(** A declared type the conversion knows: a scalar or [conversion], with or
    without the trailing [!]. *)
Definition declared_type_known (dtype : string) : Prop :=
  exists base, base ∈ map fst scalar_types ++ ["conversion"] /\
               (dtype = base \/ dtype = base +:+ "!").


(** The Merge Key. *)
Definition merge_key : list string :=
  [ "date"; "ad_id"; "ad_group_id"; "account_id"; "campaign_id" ].

(** The declared columns, in declared order. *)
Definition declared_columns : list string := map fst Schema.REDDITADS_SCHEMA.


(** The time from the first call to the last. *)
Definition elapsed (times : list Z) : Z :=
  (default 0 (last times) - default 0 (head times))%Z.

End Spec.

(** ** Sample inputs, to run the definitions *)

Module Sample.
Import Pandas Database.

(** A warehouse that accepts every call but refuses the merge statement when
    its result is awaited. *)
Definition refuses_merge (log : list call) (c : call) : option exn :=
  match c, last log with
  | job_result, Some (query _) => Some (BadRequest "invalid query")
  | _, _ => None
  end.

Definition db : BigQueryDatabase :=
  {| project_id := "project"; client := refuses_merge |}.

(** A frame of one row with an undeclared column first and the declared
    columns after it, last declared first. *)
Definition table : DataFrame :=
  ("undeclared", [Some (PInt 0)]) ::
  map (fun c => (c, [Some (PStr c)])) (reverse Spec.declared_columns).

(** [float(z)]: the binary64 number nearest to an integer, ties to even,
    given by its value. *)
Definition float64_of_int (z : Z) : Z :=
  let a := Z.abs z in
  let low := (Z.log2 a - 52)%Z in
  if (low <=? 0)%Z then z
  else
    let q := Z.shiftr a low in
    let r := Z.land a (Z.ones low) in
    let half := Z.shiftl 1 (low - 1) in
    let q := if (r <? half)%Z then q
             else if (half <? r)%Z then (q + 1)%Z
             else if Z.even q then q else (q + 1)%Z in
    (Z.sgn z * Z.shiftl q low)%Z.

Definition is_int64 (c : cell) : bool :=
  match c with
  | Some (PInt z) => (- 2 ^ 63 <=? z)%Z && (z <? 2 ^ 63)%Z
  | _ => false
  end.

Definition to_float64 (c : cell) : cell :=
  match c with
  | Some (PInt z) => Some (PInt (float64_of_int z))
  | _ => None
  end.

(** A conversion, to run the definitions: a column of 64-bit integers with a
    gap becomes float64, and every other column keeps its objects. *)
Definition convert (objects : list cell) : list cell :=
  if existsb isna objects && existsb is_int64 objects
     && forallb (fun c => isna c || is_int64 c) objects
  then map to_float64 objects
  else objects.

Program Definition pandas : Inference := {| convert_objects := convert |}.
Next Obligation.
  intros objects. unfold convert.
  destruct (existsb isna objects && existsb is_int64 objects); [|done].
  cbn [andb]. destruct (forallb _ objects) eqn:Hcells; [|done].
  induction objects as [|c objects IH]; [done|].
  cbn in Hcells. apply andb_prop in Hcells as [Hc Hcells].
  cbn [map]. rewrite (IH Hcells). f_equal.
  by destruct c as [[]|].
Qed.

(** A Credential Record as the secret holds it. *)
Definition credentials : dict :=
  <["client_id" := PStr "id"]> (<["client_secret" := PStr "secret"]>
    (<["redirect_url" := PStr "https://example.org/callback"]>
      (<["account_id" := PStr "t2_account"]>
        (<["refresh_token" := PStr "R0"]> (<["access_token" := PStr "A0"]> ∅))))).

(** Before the run: the secret holds the record, nothing is loaded. *)
Definition stored : Auth.world :=
  {| Auth.heap := []; Auth.versions := [PDict credentials]; Auth.trace := [] |}.

(** After a start that left the record unchanged: object 0 is the record. *)
Definition loaded : Auth.world :=
  {| Auth.heap := [PDict credentials];
     Auth.versions := [PDict credentials];
     Auth.trace := [] |}.

(** A token endpoint that answers every post with status 200 and [body],
    and a secret manager that accepts every version. *)
Definition endpoint (body : pyval) : Auth.Env :=
  {| Auth.requests_post := fun _ => Ok {| Auth.status_code := 200; Auth.json := Ok body |};
     Auth.add_secret_version_outcome := fun _ => None |}.

End Sample.

(** ** Sample runs *)

Module SampleRun.
Import Api.

(** An answer of a data endpoint. *)
Definition answer (status : Z) (body : json) : result Response :=
  Ok {| status_code := status; json_body := Ok body |}.

(** A run whose token endpoint answers 200 with [token], whose data endpoints
    answer as [get] says, and whose warehouse accepts every call. The library
    functions are stand-ins that let the definitions run: dates format as
    one fixed day, frames of other shapes are refused, and a merge puts the
    columns of the two frames side by side. *)
Definition env (token : result Auth.Response)
    (get : GetRequest -> result Response) : Env :=
  {| auth_env :=
       {| Auth.requests_post := fun _ => token;
          Auth.add_secret_version_outcome := fun _ => None |};
     requests_get := get;
     bigquery_Client := fun _ => Ok (fun _ _ => None);
     runtime := sample_runtime;
     py_repr := fun _ => "";
     strftime := fun _ _ => "2021-03-01T00:00:00Z";
     to_datetime := Ok;
     pd_columns := Sample.pandas;
     pd_DataFrame := fun _ => Raise (ValueError "DataFrame constructor not properly called!");
     pd_merge := fun left right _ => Ok (left ++ right);
     sort_values := fun frame _ => Ok frame |}.

Definition token_answer (status : Z) (body : pyval) : result Auth.Response :=
  Ok {| Auth.status_code := status; Auth.json := Ok body |}.

(** Before the run: the secret holds the sample record. *)
Definition start : world :=
  {| auth := Sample.stored; gets := []; calls := []; logged := [] |}.

Definition api : RedditApi :=
  {| base := "https://ads-api.reddit.com/api/v2.0";
     account_id := PStr "t2_account";
     api_headers := [ ("Authorization", "bearer A1");
                      ("User-Agent", "Turing Data Extraction") ] |}.

Definition db : Database.BigQueryDatabase :=
  {| Database.project_id := "project"; Database.client := fun _ _ => None |}.

Definition day : datetime :=
  {| year := 2021; month := 3; day := 1; hour := 0; minute := 0; second := 0 |}.

(** A clock of ten ticks to the second, on which a request takes a tenth of
    a second and a sleep lasts as long as asked. *)
Definition clock : RateLimit.Clock :=
  {| RateLimit.second := 10;
     RateLimit.request_time := fun _ _ => 1%Z;
     RateLimit.sleep_time := fun _ secs => secs |}.



End SampleRun.

(** * Properties *)

(** Membership in an explicit list. *)
Ltac in_list := cbn; repeat constructor.

(** ** Strings *)

Lemma endswith_unfold (s suffix : string) :
  endswith s suffix =
    if String.eqb s suffix then true
    else match s with
         | EmptyString => false
         | String _ s' => endswith s' suffix
         end.
Proof. by destruct s. Qed.

Lemma endswith_app_suffix (s suffix : string) :
  endswith s suffix = true -> exists p, s = p +:+ suffix.
Proof.
  induction s as [|c s IH]; rewrite endswith_unfold.
  - destruct (String.eqb_spec "" suffix) as [<-|_]; [|done].
    intros _. by exists "".
  - destruct (String.eqb_spec (String c s) suffix) as [<-|_].
    + intros _. by exists "".
    + intros [p ->]%IH. by exists (String c p).
Qed.

Lemma slice_init_app_char (p : string) (c : ascii) :
  slice_init (p +:+ String c "") = p.
Proof.
  induction p as [|a p IH]; simpl; [done|].
  rewrite IH. destruct p; simpl; done.
Qed.

Lemma endswith_bang_split (s : string) :
  endswith s "!" = true -> s = slice_init s +:+ "!".
Proof.
  intros [p ->]%endswith_app_suffix. by rewrite slice_init_app_char.
Qed.

(** ** Schema conversion *)

Section SchemaConversion.
Import Schema Spec.

Lemma type_dict_Some (dtype ty : string) :
  type_dict !! dtype = Some ty -> (dtype, ty) ∈ scalar_types.
Proof.
  unfold type_dict, scalar_types.
  rewrite !lookup_insert_Some, lookup_empty, !elem_of_cons.
  intuition (simplify_eq; auto).
Qed.

(** One pass of the loop on an entry is the conversion of that entry alone,
    appended to the fields built so far. *)
Lemma schema_to_bq_loop_cons (entry : string * string) rest fields :
  schema_to_bq_loop (entry :: rest) fields =
    match schema_to_bq [entry] with
    | Ok fs => schema_to_bq_loop rest (fields ++ fs)
    | Raise e => Raise e
    end.
Proof.
  destruct entry as [name dtype]. unfold schema_to_bq. cbn [schema_to_bq_loop].
  destruct (endswith dtype "!");
    (destruct (type_dict !! _); [done|]); by destruct (String.eqb _ "conversion").
Qed.

Lemma schema_to_bq_loop_acc schema fields :
  schema_to_bq_loop schema fields =
    match schema_to_bq schema with
    | Ok fs => Ok (fields ++ fs)
    | Raise e => Raise e
    end.
Proof.
  revert fields. induction schema as [|entry rest IH]; intros fields.
  - cbn. by rewrite app_nil_r.
  - unfold schema_to_bq. rewrite !schema_to_bq_loop_cons.
    destruct (schema_to_bq [entry]) as [fs|e]; [|done].
    rewrite (IH (fields ++ fs)), (IH ([] ++ fs)).
    destruct (schema_to_bq rest); [|done]. by rewrite app_assoc.
Qed.

Lemma schema_to_bq_cons (entry : string * string) rest :
  schema_to_bq (entry :: rest) =
    match schema_to_bq [entry] with
    | Ok fs => match schema_to_bq rest with
               | Ok fs' => Ok (fs ++ fs')
               | Raise e => Raise e
               end
    | Raise e => Raise e
    end.
Proof.
  unfold schema_to_bq at 1. rewrite schema_to_bq_loop_cons.
  destruct (schema_to_bq [entry]) as [fs|e]; [|done].
  by rewrite schema_to_bq_loop_acc.
Qed.

Lemma schema_to_bq_known_entry name dtype :
  declared_type_known dtype -> exists f, schema_to_bq [(name, dtype)] = Ok [f].
Proof.
  intros (base & Hbase & Hd). cbn in Hbase. rewrite !elem_of_cons in Hbase.
  destruct Hbase as [->|[->|[->|[->|[->|Hnil]]]]]; [..|by apply elem_of_nil in Hnil];
    destruct Hd as [->| ->]; vm_compute; eauto.
Qed.



Lemma REDDITADS_SCHEMA_converts :
  exists fields, schema_to_bq REDDITADS_SCHEMA = Ok fields.
Proof. vm_compute. eauto. Qed.



End SchemaConversion.

(** ** The report transform *)

Section ReportTransform.
Import Pandas Transform.

Lemma fast_unique_subset seen l x :
  x ∈ fast_unique seen l -> x ∈ l.
Proof.
  revert seen. induction l as [|y l IH]; intros seen; cbn; [done|].
  case_bool_decide.
  - intros Hx%IH. by apply list_elem_of_further.
  - rewrite !elem_of_cons. intros [->|Hx%IH]; auto.
Qed.

(** A frame built from records has a column only for a key of some record. *)
Lemma DataFrame_of_records_columns pd data c :
  c ∈ columns (DataFrame_of_records pd data) ->
  exists r, r ∈ data /\ c ∈ map fst r.
Proof.
  unfold columns, DataFrame_of_records. rewrite <- list_fmap_compose.
  rewrite list_fmap_id. intros Hc%fast_unique_subset.
  apply list_elem_of_In, in_concat in Hc as (keys & Hkeys & Hc).
  apply list_elem_of_In, list_elem_of_fmap in Hkeys as (r & -> & Hr).
  apply list_elem_of_In in Hc. eauto.
Qed.

Lemma drop_missing_label labels df c :
  c ∈ labels -> c ∉ columns df ->
  exists missing, drop labels df = Raise (KeyError_labels missing) /\ c ∈ missing.
Proof.
  intros Hc Hnot. unfold drop.
  assert (c ∈ filter (fun l => l ∉ columns df) labels) as Hin
    by (by apply list_elem_of_filter).
  destruct (filter _ labels) as [|m ms] eqn:Hf.
  - by apply elem_of_nil in Hin.
  - eauto.
Qed.

(** C10. When one of [ad_group_id], [campaign_id], [account_id] is a key of
    no record of the report, [transform_report] raises [KeyError] (naming that
    column) and returns no frame; the empty report is such a report. *)
Theorem transform_report_missing_column_raises_KeyError
    (pd : Inference) (to_datetime : list cell -> result (list cell))
    (report : list record) (c : string) :
  c ∈ ["ad_group_id"; "campaign_id"; "account_id"] ->
  (forall r, r ∈ report -> c ∉ map fst r) ->
  exists missing,
    transform_report pd to_datetime report = Raise (KeyError_labels missing) /\
    c ∈ missing.
Proof.
  intros Hc Habsent. unfold transform_report.
  destruct (drop_missing_label ["ad_group_id"; "campaign_id"; "account_id"]
              (DataFrame_of_records pd report) c Hc) as (missing & -> & Hmissing).
  - intros (r & Hr & Hkey)%DataFrame_of_records_columns. by apply (Habsent r).
  - eauto.
Qed.

Lemma transform_report_empty_raises_KeyError :
  exists missing,
    transform_report Sample.pandas Ok [] = Raise (KeyError_labels missing) /\
    "ad_group_id" ∈ missing.
Proof.
  apply (transform_report_missing_column_raises_KeyError Sample.pandas Ok [] "ad_group_id").
  - in_list.
  - intros r Hr. by apply elem_of_nil in Hr.
Defined.

(** A report whose records carry the three identifier columns: they are
    dropped, and so is [ecpm], which no record fills; [spend], a column of
    integers with a gap, is stored as float64. *)
Example transform_report_sample :
  transform_report Sample.pandas Ok
    [ [ ("date", PStr "2021-03-01"); ("ad_id", PStr "a"); ("ad_group_id", PStr "g");
        ("campaign_id", PStr "c"); ("account_id", PStr "t2"); ("clicks", PInt 3);
        ("ecpm", PNone) ];
      [ ("date", PStr "2021-03-02"); ("ad_id", PStr "a"); ("ad_group_id", PStr "g");
        ("campaign_id", PStr "c"); ("account_id", PStr "t2");
        ("spend", PInt 9007199254740993); ("ecpm", PNone) ] ] =
  Ok [ ("date", [Some (PStr "2021-03-01"); Some (PStr "2021-03-02")]);
       ("ad_id", [Some (PStr "a"); Some (PStr "a")]);
       ("clicks", [Some (PInt 3); None]);
       ("spend", [None; Some (PInt 9007199254740992)]) ].
Proof. by vm_compute. Qed.

End ReportTransform.

(** ** Selecting columns by label *)

Section ColumnSelection.
Import Pandas.

Lemma getitem_labels_present df key :
  (forall k, k ∈ key -> k ∈ columns df) ->
  getitem_labels df key = Ok (select_columns df key).
Proof.
  intros Hpresent. unfold getitem_labels.
  destruct (filter _ key) as [|m ms] eqn:Hf; [done|].
  assert (m ∈ filter (fun k => k ∉ columns df) key) as Hm by (rewrite Hf; in_list).
  apply list_elem_of_filter in Hm as [Hnot Hin]. by destruct Hnot; apply Hpresent.
Qed.

Lemma columns_filter_label df k :
  columns (filter (fun col => col.1 = k) df) =
    replicate (length (filter (fun c => c = k) (columns df))) k.
Proof.
  unfold columns. induction df as [|[c vs] df IH]; [done|].
  cbn [map fst]. destruct (decide (c = k)) as [->|Hne].
  - rewrite !filter_cons_True by done. cbn. by rewrite IH.
  - rewrite !filter_cons_False by done. apply IH.
Qed.

Lemma columns_select_columns df key :
  columns (select_columns df key) =
    concat (map (fun k => replicate (length (filter (fun c => c = k) (columns df))) k) key).
Proof.
  unfold select_columns. induction key as [|k key IH]; [done|].
  cbn [map concat]. unfold columns in *. rewrite map_app, IH.
  f_equal. apply columns_filter_label.
Qed.

Lemma count_label_present (l : list string) k :
  k ∈ l -> 0 < length (filter (fun c => c = k) l).
Proof.
  intros Hk. destruct (filter _ l) as [|x xs] eqn:Hf; [|cbn; lia].
  assert (k ∈ filter (fun c => c = k) l) as Hin by (by apply list_elem_of_filter).
  rewrite Hf in Hin. by apply elem_of_nil in Hin.
Qed.

Lemma count_label_NoDup (l : list string) k :
  NoDup l -> k ∈ l -> length (filter (fun c => c = k) l) = 1.
Proof.
  induction 1 as [|x l Hx _ IH]; [by intros ?%elem_of_nil|].
  rewrite filter_cons. destruct (decide (x = k)) as [->|Hne].
  - intros _. cbn. f_equal.
    destruct (filter _ l) as [|y ys] eqn:Hf; [done|].
    assert (y ∈ filter (fun c => c = k) l) as Hy by (rewrite Hf; in_list).
    apply list_elem_of_filter in Hy as [-> Hy]. done.
  - rewrite elem_of_cons. intros [->|Hk]; [done|]. by apply IH.
Qed.

Lemma elem_of_select_columns_labels df key c :
  (forall k, k ∈ key -> k ∈ columns df) ->
  c ∈ columns (select_columns df key) <-> c ∈ key.
Proof.
  intros Hpresent. rewrite columns_select_columns.
  rewrite list_elem_of_In, in_concat. split.
  - intros (block & Hblock & Hc).
    apply list_elem_of_In, list_elem_of_fmap in Hblock as (k & -> & Hk).
    apply list_elem_of_In, elem_of_replicate in Hc as [-> _]. done.
  - intros Hc. exists (replicate (length (filter (fun c' => c' = c) (columns df))) c).
    split.
    + apply list_elem_of_In, list_elem_of_fmap. by exists c.
    + apply list_elem_of_In, elem_of_replicate. split; [done|].
      pose proof (count_label_present (columns df) c (Hpresent c Hc)). lia.
Qed.

Lemma select_columns_NoDup df key :
  NoDup (columns df) -> (forall k, k ∈ key -> k ∈ columns df) ->
  columns (select_columns df key) = key.
Proof.
  intros Hnodup Hpresent. rewrite columns_select_columns.
  induction key as [|k key IH]; [done|].
  cbn [map concat]. rewrite count_label_NoDup; [|done|apply Hpresent; in_list].
  cbn. f_equal. apply IH. intros k' Hk'. apply Hpresent. by apply list_elem_of_further.
Qed.

Lemma select_columns_subset df key col :
  col ∈ select_columns df key -> col ∈ df.
Proof.
  unfold select_columns. rewrite list_elem_of_In, in_concat.
  intros (block & Hblock & Hcol).
  apply list_elem_of_In, list_elem_of_fmap in Hblock as (k & -> & _).
  by apply list_elem_of_In, list_elem_of_filter in Hcol as [_ Hcol].
Qed.

End ColumnSelection.

(** ** The warehouse loader *)

Section Loader.
Import Schema Pandas Database Spec.

Variable rt : Runtime.
Variable self : BigQueryDatabase.

(** The outcome of a call the client accepts or refuses. *)
Lemma do_call_run (c : call) (log : list call) :
  do_call self c log =
    (match client self log c with Some e => Raise e | None => Ok tt end, log ++ [c]).
Proof. reflexivity. Qed.

(** C7. When the frame has every declared column, [save_new_table] hands the
    client one load of the destination [table_id] in WRITE_TRUNCATE mode, of a
    frame whose columns are columns of the input, labelled by exactly the
    declared columns and laid out in declared order (one block per declared
    column; exactly the declared list when the input labels are distinct), so
    that no undeclared column is staged. *)
Theorem save_new_table_stages_declared_columns
    (table : DataFrame) (table_id : string) (log : list call) :
  (forall c, c ∈ declared_columns -> c ∈ columns table) ->
  exists staged fields outcome rest,
    save_new_table self table table_id log =
      (outcome,
       log ++ load_table_from_dataframe staged table_id
                {| schema := fields;
                   source_format := "PARQUET";
                   write_disposition := "WRITE_TRUNCATE" |} :: rest) /\
    (rest = [] \/ rest = [job_result]) /\
    (forall col, col ∈ staged -> col ∈ table) /\
    (forall c, c ∈ columns staged <-> c ∈ declared_columns) /\
    (forall c, c ∉ declared_columns -> c ∉ columns staged) /\
    columns staged =
      concat (map (fun k => replicate (length (filter (fun c => c = k) (columns table))) k)
                  declared_columns) /\
    (NoDup (columns table) -> columns staged = declared_columns).
Proof.
  intros Hpresent. destruct REDDITADS_SCHEMA_converts as [fields Hfields].
  exists (select_columns table declared_columns), fields.
  unfold save_new_table, bind, lift, ret. rewrite Hfields.
  fold declared_columns. rewrite (getitem_labels_present _ _ Hpresent).
  rewrite do_call_run.
  set (load := load_table_from_dataframe _ _ _).
  assert (
    (forall col, col ∈ select_columns table declared_columns -> col ∈ table) /\
    (forall c, c ∈ columns (select_columns table declared_columns) <-> c ∈ declared_columns) /\
    (forall c, c ∉ declared_columns -> c ∉ columns (select_columns table declared_columns)) /\
    columns (select_columns table declared_columns) =
      concat (map (fun k => replicate (length (filter (fun c => c = k) (columns table))) k)
                  declared_columns) /\
    (NoDup (columns table) -> columns (select_columns table declared_columns) = declared_columns))
    as Hfacts.
  { split_and!.
    - intros col. apply select_columns_subset.
    - intros c. by apply elem_of_select_columns_labels.
    - intros c Hc Hin. by apply Hc, (elem_of_select_columns_labels table declared_columns c).
    - apply columns_select_columns.
    - intros Hnodup. by apply select_columns_NoDup. }
  destruct (client self log load) as [e|].
  - exists (Raise e), []. split; [done|]. split; [by left|done].
  - unfold except_BadRequest. rewrite do_call_run.
    destruct (client self (log ++ [load]) job_result) as [[]|];
      eexists _, [job_result]; rewrite <- app_assoc;
      (split; [reflexivity|]); (split; [by right|done]).
Qed.

(** C3. Once [save_new_table] has staged the frame, [save_table] runs
    [merge_tables] and then, on every outcome of the merge, asks the client to
    delete the staging table: the delete is the last call made, after the
    calls of the merge, and the merge's outcome (its exception, if it raised)
    reaches the caller after it, unless the delete itself raises. *)
Theorem save_table_always_deletes_staging
    (table : DataFrame) (log staged_log : list call) (staged_id : string) :
  save_new_table self table (staging_id rt self) log = (Ok staged_id, staged_log) ->
  exists merge_outcome merged_log,
    merge_tables rt self (staging_id rt self) staged_log = (merge_outcome, merged_log) /\
    save_table rt self table log =
      (match client self merged_log (delete_table (staging_id rt self)) with
       | Some e => Raise e
       | None => merge_outcome
       end,
       merged_log ++ [delete_table (staging_id rt self)]).
Proof.
  intros Hstaged. unfold save_table, bind. rewrite Hstaged.
  unfold try_finally.
  destruct (merge_tables rt self (staging_id rt self) staged_log)
    as [merge_outcome merged_log].
  exists merge_outcome, merged_log. split; [done|].
  rewrite do_call_run. by destruct (client self merged_log _).
Qed.

(** The calls [merge_tables] makes for a statement: when the client takes the
    [create_table] it sends the statement, and when the client takes that too
    it awaits the result; a call that raises is the last, and a [BadRequest]
    of the result is raised as [ValueError]. *)
Lemma merge_tables_run (tmp_table_id : string) (log : list call) fields :
  schema_to_bq REDDITADS_SCHEMA = Ok fields ->
  let ensure := create_table (destination_id rt self) fields true in
  let statement := query (merge_query rt self tmp_table_id) in
  merge_tables rt self tmp_table_id log =
    match client self log ensure with
    | Some e => (Raise e, log ++ [ensure])
    | None =>
        match client self (log ++ [ensure]) statement with
        | Some e => (Raise e, log ++ [ensure; statement])
        | None =>
            (match client self (log ++ [ensure; statement]) job_result with
             | Some (BadRequest errors) => Raise (ValueError_job errors)
             | Some e => Raise e
             | None => Ok tt
             end, log ++ [ensure; statement; job_result])
        end
    end.
Proof.
  intros Hfields. cbv zeta.
  unfold merge_tables, ensure_table, bind, lift. rewrite Hfields, do_call_run.
  destruct (client self log _) as [e|]; [done|].
  rewrite do_call_run, <- app_assoc. cbn [app].
  destruct (client self _ (query _)) as [e|]; [done|].
  unfold except_BadRequest. rewrite do_call_run, <- app_assoc. cbn [app].
  by destruct (client self _ job_result) as [[]|].
Qed.

Lemma keys_merge_key : keys = list_to_set merge_key.
Proof. by vm_compute. Qed.

Lemma NoDup_merge_key : NoDup merge_key.
Proof. apply (bool_decide_unpack _). by vm_compute. Qed.

Lemma NoDup_declared_columns : NoDup declared_columns.
Proof. apply (bool_decide_unpack _). by vm_compute. Qed.

Lemma elements_keys : elements keys ≡ₚ merge_key.
Proof. rewrite keys_merge_key. apply elements_list_to_set, NoDup_merge_key. Qed.

Lemma elements_insert_cols_list : elements insert_cols_list ≡ₚ declared_columns.
Proof. apply elements_list_to_set, NoDup_declared_columns. Qed.

Lemma elements_update_cols_list :
  elements update_cols_list ≡ₚ filter (fun c => c ∉ merge_key) declared_columns.
Proof.
  apply NoDup_Permutation.
  - apply NoDup_elements.
  - apply NoDup_filter, NoDup_declared_columns.
  - intros c. unfold update_cols_list, insert_cols_list.
    rewrite elem_of_elements, elem_of_difference, keys_merge_key.
    rewrite !elem_of_list_to_set, list_elem_of_filter. fold declared_columns. tauto.
Qed.

Section SetOrder.

(** Iterating a set visits each of its elements once, in some order. *)
Hypothesis set_iter_elements : forall s, set_iter rt s ≡ₚ elements s.

(** C2. [merge_tables] ensures the destination and then sends the warehouse
    one statement (none when ensuring raises), whose text is the one written
    out here: a [merge] of the staging table into the destination whose [on]
    condition equates old and tmp on the columns of the Merge Key (in some
    order), whose [update set] assigns exactly the declared columns outside
    the key, and whose [insert] names exactly the declared columns, the
    [values] list referring to the same columns in the same order. The
    statement is the only query of the call; its result is awaited once. *)
Theorem merge_tables_statement (tmp_table_id : string) (log : list call) :
  let on_columns := set_iter rt keys in
  let set_columns := set_iter rt update_cols_list in
  let into_columns := set_iter rt insert_cols_list in
  let indent := fun text => textwrap_indent rt text "        " in
  let table_id :=
    project_id self +:+ "." +:+ format_member rt DATASET +:+ "." +:+ format_member rt TABLE in
  let text :=
    LF +:+
    "        merge " +:+ table_id +:+ " as old" +:+ LF +:+
    "        using " +:+ tmp_table_id +:+ " as tmp" +:+ LF +:+
    "            on " +:+
      indent (join (LF +:+ "and ")
                (map (fun c => "old." +:+ c +:+ " = tmp." +:+ c) on_columns)) +:+ LF +:+
    "        when matched then" +:+ LF +:+
    "            update set" +:+ LF +:+
    "                " +:+
      indent (join ("," +:+ LF) (map (fun c => c +:+ " = tmp." +:+ c) set_columns)) +:+ LF +:+
    "        when not matched then" +:+ LF +:+
    "            insert (" +:+ LF +:+
    "                " +:+ indent (join ("," +:+ LF) into_columns) +:+ LF +:+
    "            )" +:+ LF +:+
    "            values (" +:+ LF +:+
    "                " +:+
      indent (join ("," +:+ LF) (map (fun c => "tmp." +:+ c) into_columns)) +:+ LF +:+
    "            )" +:+ LF +:+
    "        " in
  on_columns ≡ₚ merge_key /\
  set_columns ≡ₚ filter (fun c => c ∉ merge_key) declared_columns /\
  into_columns ≡ₚ declared_columns /\
  exists fields,
    schema_to_bq REDDITADS_SCHEMA = Ok fields /\
    let ensure := create_table table_id fields true in
    merge_tables rt self tmp_table_id log =
      match client self log ensure with
      | Some e => (Raise e, log ++ [ensure])
      | None =>
          match client self (log ++ [ensure]) (query text) with
          | Some e => (Raise e, log ++ [ensure; query text])
          | None =>
              (match client self (log ++ [ensure; query text]) job_result with
               | Some (BadRequest errors) => Raise (ValueError_job errors)
               | Some e => Raise e
               | None => Ok tt
               end, log ++ [ensure; query text; job_result])
          end
      end.
Proof.
  cbv zeta. split_and!.
  - rewrite set_iter_elements. apply elements_keys.
  - rewrite set_iter_elements. apply elements_update_cols_list.
  - rewrite set_iter_elements. apply elements_insert_cols_list.
  - destruct REDDITADS_SCHEMA_converts as [fields Hfields]. exists fields.
    split; [exact Hfields|]. exact (merge_tables_run tmp_table_id log fields Hfields).
Qed.

End SetOrder.

End Loader.

(** ** The loader on the sample inputs *)

Section LoaderRuns.
Import Schema Pandas Database Spec.

Lemma sample_table_has_declared_columns :
  forall c, c ∈ declared_columns -> c ∈ columns Sample.table.
Proof.
  apply Forall_forall. apply (bool_decide_unpack _). by vm_compute.
Qed.

Lemma save_new_table_stages_declared_columns_witness :
  exists staged fields outcome rest,
    save_new_table Sample.db Sample.table "project.reddit.redditads_tmp" [] =
      (outcome,
       load_table_from_dataframe staged "project.reddit.redditads_tmp"
         {| schema := fields;
            source_format := "PARQUET";
            write_disposition := "WRITE_TRUNCATE" |} :: rest) /\
    ("undeclared" ∉ columns staged) /\
    columns staged = declared_columns.
Proof.
  destruct (save_new_table_stages_declared_columns Sample.db Sample.table
              "project.reddit.redditads_tmp" [] sample_table_has_declared_columns)
    as (staged & fields & outcome & rest & Hrun & _ & _ & _ & Hundeclared & _ & Hexact).
  exists staged, fields, outcome, rest. split_and!.
  - exact Hrun.
  - apply Hundeclared. apply (bool_decide_unpack _). by vm_compute.
  - apply Hexact. apply (bool_decide_unpack _). by vm_compute.
Defined.

Lemma save_table_always_deletes_staging_witness :
  exists merged_log,
    save_table sample_runtime Sample.db Sample.table [] =
      (Raise (ValueError_job "invalid query"),
       merged_log ++ [delete_table "project.reddit.redditads_tmp"]).
Proof.
  destruct (save_table_always_deletes_staging sample_runtime Sample.db Sample.table []
              (save_new_table Sample.db Sample.table (staging_id sample_runtime Sample.db) []).2
              "project.reddit.redditads_tmp")
    as (merge_outcome & merged_log & Hmerge & Hsave).
  - by vm_compute.
  - exists merged_log. rewrite Hsave. vm_compute in Hmerge.
    injection Hmerge as <- <-. by vm_compute.
Defined.

(** The statement for the sample runtime, which iterates a set in the order
    of [elements]; the sample warehouse refuses it when its result is
    awaited. *)
Lemma merge_tables_statement_witness :
  exists fields,
    schema_to_bq REDDITADS_SCHEMA = Ok fields /\
    merge_tables sample_runtime Sample.db "project.reddit.redditads_tmp" [] =
      (Raise (ValueError_job "invalid query"),
       [ create_table "project.reddit.redditads" fields true;
         query "
        merge project.reddit.redditads as old
        using project.reddit.redditads_tmp as tmp
            on         old.campaign_id = tmp.campaign_id
        and old.account_id = tmp.account_id
        and old.ad_group_id = tmp.ad_group_id
        and old.ad_id = tmp.ad_id
        and old.date = tmp.date
        when matched then
            update set
                        search = tmp.search,
        sign_up = tmp.sign_up,
        spend = tmp.spend,
        custom = tmp.custom,
        campaign_name = tmp.campaign_name,
        clicks = tmp.clicks,
        ctr = tmp.ctr,
        cpc = tmp.cpc,
        ecpm = tmp.ecpm,
        impressions = tmp.impressions,
        ad_group_name = tmp.ad_group_name,
        ad_name = tmp.ad_name,
        add_to_wishlist = tmp.add_to_wishlist,
        add_to_cart = tmp.add_to_cart,
        view_content = tmp.view_content,
        video_watched_75_percent = tmp.video_watched_75_percent,
        video_watched_3_seconds = tmp.video_watched_3_seconds,
        video_watched_50_percent = tmp.video_watched_50_percent,
        video_watched_95_percent = tmp.video_watched_95_percent,
        video_watched_10_seconds = tmp.video_watched_10_seconds,
        video_watched_100_percent = tmp.video_watched_100_percent,
        video_watched_25_percent = tmp.video_watched_25_percent,
        video_started = tmp.video_started,
        video_viewable_impressions = tmp.video_viewable_impressions,
        video_fully_viewable_impressions = tmp.video_fully_viewable_impressions,
        video_plays_with_sound = tmp.video_plays_with_sound,
        video_plays_expanded = tmp.video_plays_expanded,
        lead = tmp.lead,
        purchase = tmp.purchase,
        page_visit = tmp.page_visit
        when not matched then
            insert (
                        search,
        sign_up,
        spend,
        custom,
        campaign_id,
        campaign_name,
        clicks,
        ctr,
        cpc,
        ecpm,
        impressions,
        account_id,
        ad_group_id,
        ad_group_name,
        ad_id,
        ad_name,
        add_to_wishlist,
        add_to_cart,
        view_content,
        video_watched_75_percent,
        video_watched_3_seconds,
        video_watched_50_percent,
        video_watched_95_percent,
        video_watched_10_seconds,
        video_watched_100_percent,
        video_watched_25_percent,
        video_started,
        video_viewable_impressions,
        video_fully_viewable_impressions,
        video_plays_with_sound,
        video_plays_expanded,
        lead,
        date,
        purchase,
        page_visit
            )
            values (
                        tmp.search,
        tmp.sign_up,
        tmp.spend,
        tmp.custom,
        tmp.campaign_id,
        tmp.campaign_name,
        tmp.clicks,
        tmp.ctr,
        tmp.cpc,
        tmp.ecpm,
        tmp.impressions,
        tmp.account_id,
        tmp.ad_group_id,
        tmp.ad_group_name,
        tmp.ad_id,
        tmp.ad_name,
        tmp.add_to_wishlist,
        tmp.add_to_cart,
        tmp.view_content,
        tmp.video_watched_75_percent,
        tmp.video_watched_3_seconds,
        tmp.video_watched_50_percent,
        tmp.video_watched_95_percent,
        tmp.video_watched_10_seconds,
        tmp.video_watched_100_percent,
        tmp.video_watched_25_percent,
        tmp.video_started,
        tmp.video_viewable_impressions,
        tmp.video_fully_viewable_impressions,
        tmp.video_plays_with_sound,
        tmp.video_plays_expanded,
        tmp.lead,
        tmp.date,
        tmp.purchase,
        tmp.page_visit
            )
        ";
         job_result ]).
Proof.
  destruct (merge_tables_statement sample_runtime Sample.db (fun s => reflexivity _)
              "project.reddit.redditads_tmp" [])
    as (_ & _ & _ & fields & Hfields & Hrun).
  exists fields. split; [exact Hfields|]. rewrite Hrun. by vm_compute.
Defined.

End LoaderRuns.

(** ** The token exchange *)

Section TokenExchange.
Import Auth.

Variable env : Env.

(** A status [raise_for_status] lets through. *)
Lemma raise_for_status_ok (res : Response) (w : world) :
  ~ (400 <= status_code res < 600)%Z -> raise_for_status res w = (Ok tt, w).
Proof.
  intros Hstatus. unfold raise_for_status.
  destruct (400 <=? status_code res)%Z eqn:Hlo; [|done].
  destruct (status_code res <? 600)%Z eqn:Hhi; [|done].
  apply Z.leb_le in Hlo. apply Z.ltb_lt in Hhi. lia.
Qed.

(** C4. When the token endpoint answers with a 2xx status and a JSON object
    that has an [error] field, [make_request] raises [HTTPError] built from
    that field's value; the only effect is the post itself: the credential
    dict is not changed, [save_token] is not called, and the secret keeps its
    versions. *)
Theorem make_request_error_field_raises
    (config : loc) (data : dict) (w : world)
    (cfg : dict) (client_id client_secret : pyval)
    (res : Response) (token : dict) (err : pyval) :
  heap w !! config = Some (PDict cfg) ->
  cfg !! "client_id" = Some client_id ->
  cfg !! "client_secret" = Some client_secret ->
  requests_post env (access_token_request client_id client_secret data) = Ok res ->
  (200 <= status_code res < 300)%Z ->
  json res = Ok (PDict token) ->
  token !! "error" = Some err ->
  make_request env config data w =
    (Raise (HTTPError_token err),
     {| heap := heap w;
        versions := versions w;
        trace := trace w ++ [post (access_token_request client_id client_secret data)] |}).
Proof.
  intros Hcfg Hid Hsecret Hpost Hstatus Hjson Herr.
  unfold make_request, bind, deref, lift, emit. rewrite Hcfg. cbn.
  rewrite Hid, Hsecret, Hpost. cbn.
  rewrite raise_for_status_ok by (cbn; lia).
  rewrite Hjson. cbn. rewrite Herr. by rewrite bool_decide_true.
Qed.

(** The exchange on a response without an [error] field: both token fields
    are set from the response, falling back on the same field of the grant
    payload [data]; the dict is changed in place and handed to [save_token]. *)
Lemma make_request_success
    (config : loc) (data : dict) (w : world)
    (cfg : dict) (client_id client_secret : pyval)
    (res : Response) (token : dict) :
  heap w !! config = Some (PDict cfg) ->
  cfg !! "client_id" = Some client_id ->
  cfg !! "client_secret" = Some client_secret ->
  requests_post env (access_token_request client_id client_secret data) = Ok res ->
  ~ (400 <= status_code res < 600)%Z ->
  json res = Ok (PDict token) ->
  token !! "error" = None ->
  let cfg' : dict :=
    <["access_token" :=
        py_or (dict_get token "access_token") (dict_get data "access_token")]>
      (<["refresh_token" :=
          py_or (dict_get token "refresh_token") (dict_get data "refresh_token")]> cfg) in
  let saved := add_secret_version_outcome env (PDict cfg') in
  make_request env config data w =
    (match saved with Some e => Raise e | None => Ok config end,
     {| heap := <[config := PDict cfg']> (heap w);
        versions := match saved with
                    | Some _ => versions w
                    | None => PDict cfg' :: versions w
                    end;
        trace := trace w ++ [post (access_token_request client_id client_secret data);
                             add_secret_version (PDict cfg')] |}).
Proof.
  intros Hcfg Hid Hsecret Hpost Hstatus Hjson Herr cfg' saved.
  pose proof (lookup_lt_Some _ _ _ Hcfg) as Hlt.
  unfold make_request, bind, deref, lift, emit. rewrite Hcfg. cbn.
  rewrite Hid, Hsecret, Hpost. cbn.
  rewrite (raise_for_status_ok _ _ Hstatus).
  rewrite Hjson. cbn. rewrite Herr.
  rewrite bool_decide_false by (by intros [? ?]).
  cbn. rewrite Hcfg. cbn.
  rewrite list_lookup_insert_eq by done. cbn.
  rewrite list_insert_insert_eq. fold cfg'.
  unfold save_token, bind, deref, emit, raise. cbn.
  rewrite list_lookup_insert_eq by done. fold saved.
  destruct saved; cbn; by rewrite <- app_assoc.
Qed.

(** C9. On a credential dict that has [redirect_url], [get_token] raises
    [TypeError] for every code, when it calls [make_request] with the grant
    payload as its only argument: no request is posted, the credential dict
    and the secret are as before. *)
Theorem get_token_raises_TypeError
    (self : RedditAuth) (code : string) (w : world) (cfg : dict) (redirect_url : pyval) :
  heap w !! config self = Some (PDict cfg) ->
  cfg !! "redirect_url" = Some redirect_url ->
  get_token env self code w = (Raise TypeError, w).
Proof.
  intros Hcfg Hurl. unfold get_token, bind, deref, lift. rewrite Hcfg. cbn.
  by rewrite Hurl.
Qed.

(** Whatever the credential object holds, [get_token] raises and leaves the
    world as it found it. *)
Lemma get_token_never_returns (self : RedditAuth) (code : string) (w : world) :
  exists e, get_token env self code w = (Raise e, w).
Proof.
  unfold get_token, bind, deref, lift.
  destruct (heap w !! config self) as [[| | | | |cfg]|]; cbn; eauto.
  destruct (cfg !! "redirect_url"); cbn; eauto.
Qed.

(** The refresh-token grant: when the response has no usable [refresh_token]
    (absent, null or empty), the record that is saved keeps the stored one. *)
Lemma refresh_token_retains_stored_refresh_token
    (w : world) (cfg : dict) (older : list pyval)
    (client_id client_secret prior : pyval) (res : Response) (token : dict) :
  versions w = PDict cfg :: older ->
  cfg !! "client_id" = Some client_id ->
  cfg !! "client_secret" = Some client_secret ->
  cfg !! "refresh_token" = Some prior ->
  requests_post env (access_token_request client_id client_secret (refresh_grant prior))
    = Ok res ->
  ~ (400 <= status_code res < 600)%Z ->
  json res = Ok (PDict token) ->
  token !! "error" = None ->
  truthy (dict_get token "refresh_token") = false ->
  exists (cfg' : dict) outcome w',
    refresh_token env w = (outcome, w') /\
    heap w' = heap w ++ [PDict cfg'] /\
    trace w' =
      trace w ++
      [ access_secret_version;
        post (access_token_request client_id client_secret (refresh_grant prior));
        add_secret_version (PDict cfg') ] /\
    cfg' !! "refresh_token" = Some prior.
Proof.
  intros Hversions Hid Hsecret Hprior Hpost Hstatus Hjson Herr Hfalsy.
  unfold refresh_token, read_token, bind, emit, alloc. cbn. rewrite Hversions.
  unfold deref at 1. cbn. rewrite lookup_app_r, Nat.sub_diag by done. cbn.
  rewrite Hprior. cbn.
  erewrite make_request_success; eauto;
    [|by (cbn; rewrite lookup_app_r, Nat.sub_diag by done)].
  eexists _, _, _. split; [reflexivity|]. cbn. split_and!.
  - rewrite insert_app_r_alt, Nat.sub_diag by done. done.
  - by rewrite <- app_assoc.
  - rewrite lookup_insert_ne by done. rewrite lookup_insert_eq.
    unfold py_or. rewrite Hfalsy. unfold refresh_grant, dict_get.
    rewrite lookup_insert_ne by done. by rewrite lookup_insert_eq.
Qed.

End TokenExchange.

(** ** The token exchange on the sample inputs *)

Section TokenExchangeRuns.
Import Auth.

Lemma make_request_error_field_raises_witness :
  make_request (Sample.endpoint (PDict {[ "error" := PStr "invalid_grant" ]}))
               0 (refresh_grant (PStr "R0")) Sample.loaded =
    (Raise (HTTPError_token (PStr "invalid_grant")),
     {| heap := [PDict Sample.credentials];
        versions := [PDict Sample.credentials];
        trace := [post (access_token_request (PStr "id") (PStr "secret")
                          (refresh_grant (PStr "R0")))] |}).
Proof.
  apply (make_request_error_field_raises
           (Sample.endpoint (PDict {[ "error" := PStr "invalid_grant" ]}))
           0 (refresh_grant (PStr "R0")) Sample.loaded Sample.credentials
           (PStr "id") (PStr "secret")
           {| status_code := 200;
              json := Ok (PDict {[ "error" := PStr "invalid_grant" ]}) |}
           {[ "error" := PStr "invalid_grant" ]} (PStr "invalid_grant")).
  - reflexivity.
  - by vm_compute.
  - by vm_compute.
  - reflexivity.
  - cbn. lia.
  - reflexivity.
  - by vm_compute.
Defined.

Lemma get_token_raises_TypeError_witness :
  get_token (Sample.endpoint (PDict ∅)) {| config := 0 |} "code" Sample.loaded =
    (Raise TypeError, Sample.loaded).
Proof.
  apply (get_token_raises_TypeError (Sample.endpoint (PDict ∅)) {| config := 0 |}
           "code" Sample.loaded Sample.credentials
           (PStr "https://example.org/callback")).
  - reflexivity.
  - by vm_compute.
Defined.

(** C1. An authorization-code grant answered without a [refresh_token]: the
    record [make_request] saves has [refresh_token] set to [None], although
    the stored record had ["R0"]. *)
Example make_request_authorization_code_grant_drops_refresh_token :
  exists w',
    make_request (Sample.endpoint (PDict {[ "access_token" := PStr "A1" ]})) 0
      (authorization_code_grant "code" (PStr "https://example.org/callback"))
      Sample.loaded = (Ok 0, w') /\
    Sample.credentials !! "refresh_token" = Some (PStr "R0") /\
    versions w' =
      [ PDict (<["access_token" := PStr "A1"]>
                 (<["refresh_token" := PNone]> Sample.credentials));
        PDict Sample.credentials ].
Proof. eexists. split; [by vm_compute|]. split; by vm_compute. Qed.

(** C6. A refresh-token grant answered without an [access_token]: the record
    [refresh_token] saves has [access_token] set to [None], although the
    stored record had ["A0"]. *)
Example refresh_token_without_access_token_drops_access_token :
  exists w',
    refresh_token (Sample.endpoint (PDict {[ "refresh_token" := PStr "R1" ]}))
      Sample.stored = (Ok 0, w') /\
    Sample.credentials !! "access_token" = Some (PStr "A0") /\
    versions w' =
      [ PDict (<["access_token" := PNone]>
                 (<["refresh_token" := PStr "R1"]> Sample.credentials));
        PDict Sample.credentials ].
Proof. eexists. split; [by vm_compute|]. split; by vm_compute. Qed.

Lemma refresh_token_retains_stored_refresh_token_witness :
  exists (cfg' : dict) outcome w',
    refresh_token (Sample.endpoint (PDict {[ "access_token" := PStr "A1" ]}))
      Sample.stored = (outcome, w') /\
    heap w' = [PDict cfg'] /\
    cfg' !! "refresh_token" = Some (PStr "R0").
Proof.
  destruct (refresh_token_retains_stored_refresh_token
              (Sample.endpoint (PDict {[ "access_token" := PStr "A1" ]}))
              Sample.stored Sample.credentials [] (PStr "id") (PStr "secret") (PStr "R0")
              {| status_code := 200;
                 json := Ok (PDict {[ "access_token" := PStr "A1" ]}) |}
              {[ "access_token" := PStr "A1" ]})
    as (cfg' & outcome & w' & Hrun & Hheap & _ & Hkept).
  - reflexivity.
  - by vm_compute.
  - by vm_compute.
  - by vm_compute.
  - reflexivity.
  - cbn. lia.
  - reflexivity.
  - by vm_compute.
  - by vm_compute.
  - by exists cfg', outcome, w'.
Defined.

End TokenExchangeRuns.

(** * Further properties of the code *)

(** ** Schema conversion: order, the modifier, the error *)

Section SchemaFurther.
Import Schema Spec.

Lemma endswith_app_self (p suffix : string) : endswith (p +:+ suffix) suffix = true.
Proof.
  induction p as [|c p IH]; rewrite endswith_unfold.
  - by rewrite String.eqb_refl.
  - by destruct (String.eqb _ suffix).
Qed.

Lemma schema_to_bq_entry_name name dtype fs :
  schema_to_bq [(name, dtype)] = Ok fs -> map field_name fs = [name].
Proof.
  unfold schema_to_bq. cbn [schema_to_bq_loop].
  destruct (endswith dtype "!");
    (destruct (type_dict !! _); [by intros [= <-]|]);
    (destruct (String.eqb _ "conversion"); [by intros [= <-]|done]).
Qed.

(** Conversion keeps the columns and their order: the fields of a converted
    schema carry the schema's column names, one field per column, in
    declared order. *)
Theorem schema_to_bq_keeps_names (schema : list (string * string)) fields :
  schema_to_bq schema = Ok fields ->
  map field_name fields = map fst schema.
Proof.
  revert fields. induction schema as [|[name dtype] rest IH]; intros fields.
  - by intros [= <-].
  - rewrite schema_to_bq_cons.
    destruct (schema_to_bq [(name, dtype)]) as [fs|] eqn:Hentry; [|done].
    destruct (schema_to_bq rest) as [fs'|]; [|done].
    intros [= <-]. rewrite map_app, (schema_to_bq_entry_name _ _ _ Hentry).
    cbn. f_equal. by apply IH.
Qed.

Lemma schema_to_bq_keeps_names_witness :
  exists fields,
    schema_to_bq REDDITADS_SCHEMA = Ok fields /\
    map field_name fields = declared_columns.
Proof.
  destruct REDDITADS_SCHEMA_converts as [fields Hfields].
  exists fields. split; [done|].
  apply (schema_to_bq_keeps_names REDDITADS_SCHEMA fields Hfields).
Defined.

(** The [!] modifier has no effect on a [conversion] column: a schema
    converts to the same fields, or fails the same way, when its
    [conversion!] entries are written [conversion]; the record is NULLABLE
    either way. *)
Theorem schema_to_bq_ignores_required_conversion (schema : list (string * string)) :
  schema_to_bq
    (map (fun entry => if String.eqb entry.2 "conversion!"
                       then (entry.1, "conversion") else entry) schema) =
  schema_to_bq schema.
Proof.
  induction schema as [|[name dtype] rest IH]; [done|].
  cbn [map]. rewrite (schema_to_bq_cons (name, dtype) rest).
  rewrite (schema_to_bq_cons _ (map _ rest)), IH. cbn [fst snd].
  by destruct (String.eqb_spec dtype "conversion!") as [->|].
Qed.

(** Conversion stops at the first column whose declared type is not known
    and names that type in the error, less one trailing [!] at most (so
    [int!!] is reported as [int!]). *)
Theorem schema_to_bq_first_unknown_type
    (known : list (string * string)) (name dtype : string) (rest : list (string * string)) :
  Forall (fun entry => declared_type_known entry.2) known ->
  ~ declared_type_known dtype ->
  (forall base, dtype = base +:+ "!" ->
     schema_to_bq (known ++ (name, dtype) :: rest) =
       Raise (ValueError ("Field type " +:+ base +:+ " is not supported."))) /\
  ((forall base, dtype <> base +:+ "!") ->
     schema_to_bq (known ++ (name, dtype) :: rest) =
       Raise (ValueError ("Field type " +:+ dtype +:+ " is not supported."))).
Proof.
  intros Hknown Hunknown.
  assert (forall msg, schema_to_bq [(name, dtype)] = Raise (ValueError msg) ->
            schema_to_bq (known ++ (name, dtype) :: rest) = Raise (ValueError msg))
    as Hstop.
  { intros msg Hmsg. induction Hknown as [|[n d] known Hd _ IH]; cbn [app].
    - by rewrite schema_to_bq_cons, Hmsg.
    - rewrite schema_to_bq_cons, IH.
      by destruct (schema_to_bq_known_entry n d Hd) as [f ->]. }
  assert (forall base, (dtype = base \/ dtype = base +:+ "!") ->
            type_dict !! base = None /\ String.eqb base "conversion" = false)
    as Hbase.
  { intros base Hd. split.
    - destruct (type_dict !! base) as [ty|] eqn:Hty; [|done].
      apply type_dict_Some in Hty. destruct Hunknown. exists base. split; [|done].
      apply elem_of_app. left. apply list_elem_of_fmap. by exists (base, ty).
    - destruct (String.eqb_spec base "conversion") as [->|]; [|done].
      destruct Hunknown. exists "conversion". split; [|done].
      apply elem_of_app. right. by apply list_elem_of_singleton. }
  split.
  - intros base ->. apply Hstop. unfold schema_to_bq. cbn [schema_to_bq_loop].
    rewrite endswith_app_self, slice_init_app_char. by destruct (Hbase base) as [-> ->]; [right|].
  - intros Hplain. apply Hstop. unfold schema_to_bq. cbn [schema_to_bq_loop].
    destruct (endswith dtype "!") eqn:Hbang.
    + apply endswith_bang_split in Hbang. by destruct (Hplain (slice_init dtype)).
    + by destruct (Hbase dtype) as [-> ->]; [left|].
Qed.

Lemma schema_to_bq_first_unknown_type_witness :
  schema_to_bq [("spend", "int"); ("count", "int!!"); ("flag", "bool")] =
    Raise (ValueError "Field type int! is not supported.").
Proof.
  destruct (schema_to_bq_first_unknown_type [("spend", "int")] "count" "int!!"
              [("flag", "bool")]) as [Hbang _].
  - repeat constructor. exists "int". split; [in_list|by left].
  - intros (base & Hbase & Hd). cbn in Hbase, Hd. rewrite !elem_of_cons in Hbase.
    destruct Hbase as [->|[->|[->|[->|[->|Hnil]]]]]; [..|by apply elem_of_nil in Hnil];
      by destruct Hd.
  - by apply (Hbang "int!").
Defined.

End SchemaFurther.

(** ** The loader: failures and the order of calls *)

Section LoaderFurther.
Import Schema Pandas Database Spec.

Variable rt : Runtime.
Variable self : BigQueryDatabase.

(** The calls [save_new_table] makes, and that it returns the destination. *)
Lemma save_new_table_calls (table : DataFrame) (table_id : string) (log : list call)
    outcome log' :
  save_new_table self table table_id log = (outcome, log') ->
  exists rest,
    log' = log ++ rest /\
    Forall (fun c => c = job_result \/
                     exists staged cfg, c = load_table_from_dataframe staged table_id cfg)
           rest.
Proof.
  destruct REDDITADS_SCHEMA_converts as [fields Hfields].
  unfold save_new_table, bind, lift, ret. rewrite Hfields.
  destruct (getitem_labels table _) as [staged|e].
  2:{ intros [= <- <-]. exists []. rewrite app_nil_r. split; [done|constructor]. }
  rewrite do_call_run. destruct (client self log _) as [e|].
  { intros [= <- <-]. eexists [_]. split; [done|].
    constructor; [right; eauto|constructor]. }
  unfold except_BadRequest. rewrite do_call_run.
  destruct (client self _ job_result) as [[]|]; intros [= <- <-];
    eexists [_; _]; rewrite <- app_assoc; (split; [done|]);
    (constructor; [right; eauto|]); (constructor; [by left|constructor]).
Qed.

(** When a declared column is missing from the frame, [save_new_table]
    raises [KeyError] naming the missing declared columns, in declared order,
    and asks nothing of the warehouse. *)
Theorem save_new_table_missing_column
    (table : DataFrame) (table_id : string) (log : list call) (c : string) :
  c ∈ declared_columns -> c ∉ columns table ->
  save_new_table self table table_id log =
    (Raise (KeyError_labels (filter (fun k => k ∉ columns table) declared_columns)), log) /\
  c ∈ filter (fun k => k ∉ columns table) declared_columns.
Proof.
  intros Hc Hmissing.
  assert (c ∈ filter (fun k => k ∉ columns table) declared_columns) as Hin
    by (by apply list_elem_of_filter).
  split; [|done].
  destruct REDDITADS_SCHEMA_converts as [fields Hfields].
  unfold save_new_table, bind, lift. rewrite Hfields.
  unfold getitem_labels. fold declared_columns.
  destruct (filter _ declared_columns) as [|m ms]; [|done].
  by apply elem_of_nil in Hin.
Qed.

(** When staging fails, [save_table] stops there: it raises the same
    exception, and neither merges nor deletes the staging table. *)
Theorem save_table_staging_failure
    (table : DataFrame) (log log' : list call) (e : exn) :
  save_new_table self table (staging_id rt self) log = (Raise e, log') ->
  save_table rt self table log = (Raise e, log') /\
  exists rest,
    log' = log ++ rest /\
    Forall (fun c => forall tid text,
              c <> delete_table tid /\ c <> query text) rest.
Proof.
  intros Hstage. split.
  - unfold save_table, bind. by rewrite Hstage.
  - destruct (save_new_table_calls _ _ _ _ _ Hstage) as (rest & -> & Hrest).
    exists rest. split; [done|].
    eapply Forall_impl; [exact Hrest|].
    intros c [->|(staged & cfg & ->)] tid text; by split.
Qed.

(** [merge_tables] turns a [BadRequest] into [ValueError(job.errors)] only
    when it comes from waiting for the job: a [BadRequest] (or anything else)
    raised when the query is submitted, and any other exception of the wait,
    reach the caller unchanged. *)
Theorem merge_tables_error_translation
    (tmp_table_id : string) (log : list call) (fields : list SchemaField) :
  schema_to_bq REDDITADS_SCHEMA = Ok fields ->
  let ensure := create_table (destination_id rt self) fields true in
  let statement := query (merge_query rt self tmp_table_id) in
  client self log ensure = None ->
  (forall e, client self (log ++ [ensure]) statement = Some e ->
     merge_tables rt self tmp_table_id log = (Raise e, log ++ [ensure; statement])) /\
  (client self (log ++ [ensure]) statement = None ->
     merge_tables rt self tmp_table_id log =
       (match client self (log ++ [ensure; statement]) job_result with
        | Some (BadRequest errors) => Raise (ValueError_job errors)
        | Some e => Raise e
        | None => Ok tt
        end,
        log ++ [ensure; statement; job_result])).
Proof.
  intros Hfields ensure statement Hensure.
  unfold merge_tables, ensure_table, bind, lift. rewrite Hfields, do_call_run.
  fold ensure. rewrite Hensure, do_call_run. fold statement.
  split.
  - intros e ->. by rewrite <- app_assoc.
  - intros ->. unfold except_BadRequest. rewrite do_call_run, <- !app_assoc. cbn [app].
    by destruct (client self _ job_result) as [[]|].
Qed.

(** With a warehouse that accepts every call and a frame that has every
    declared column, [save_table] makes six calls in this order: load the
    staging table, await the load, ensure the destination, submit the merge,
    await it, delete the staging table. *)
Theorem save_table_call_sequence (table : DataFrame) (log : list call) :
  (forall log c, client self log c = None) ->
  (forall c, c ∈ declared_columns -> c ∈ columns table) ->
  exists staged fields,
    schema_to_bq REDDITADS_SCHEMA = Ok fields /\
    columns staged = concat (map (fun k =>
        replicate (length (filter (fun c => c = k) (columns table))) k) declared_columns) /\
    save_table rt self table log =
      (Ok tt,
       log ++
       [ load_table_from_dataframe staged (staging_id rt self)
           {| schema := fields;
              source_format := "PARQUET";
              write_disposition := "WRITE_TRUNCATE" |};
         job_result;
         create_table (destination_id rt self) fields true;
         query (merge_query rt self (staging_id rt self));
         job_result;
         delete_table (staging_id rt self) ]).
Proof.
  intros Haccept Hpresent. destruct REDDITADS_SCHEMA_converts as [fields Hfields].
  exists (select_columns table declared_columns), fields.
  split; [done|]. split; [apply columns_select_columns|].
  unfold save_table, save_new_table, merge_tables, ensure_table, try_finally,
    except_BadRequest, bind, lift, ret.
  rewrite Hfields. fold declared_columns.
  rewrite (getitem_labels_present _ _ Hpresent).
  repeat (rewrite do_call_run, Haccept; cbv beta iota).
  by rewrite <- !app_assoc.
Qed.

End LoaderFurther.

Section LoaderFurtherRuns.
Import Schema Pandas Database Spec.

(** A warehouse that accepts every call. *)
Lemma save_table_call_sequence_witness :
  exists staged fields,
    columns staged = declared_columns /\
    save_table sample_runtime
      {| project_id := "project"; client := fun _ _ => None |} Sample.table [] =
      (Ok tt,
       [ load_table_from_dataframe staged "project.reddit.redditads_tmp"
           {| schema := fields;
              source_format := "PARQUET";
              write_disposition := "WRITE_TRUNCATE" |};
         job_result;
         create_table "project.reddit.redditads" fields true;
         query (merge_query sample_runtime
                  {| project_id := "project"; client := fun _ _ => None |}
                  "project.reddit.redditads_tmp");
         job_result;
         delete_table "project.reddit.redditads_tmp" ]).
Proof.
  destruct (save_table_call_sequence sample_runtime
              {| project_id := "project"; client := fun _ _ => None |} Sample.table [])
    as (staged & fields & _ & Hcols & Hrun).
  - done.
  - apply sample_table_has_declared_columns.
  - exists staged, fields. split; [|exact Hrun].
    rewrite Hcols. by vm_compute.
Defined.

Lemma save_new_table_missing_column_witness :
  save_new_table Sample.db [("date", [Some (PStr "2021-03-01")]); ("spend", [Some (PInt 1)])]
    "project.reddit.redditads_tmp" [] =
    (Raise (KeyError_labels
       (filter (fun k => k ∉ ["date"; "spend"]) declared_columns)), []) /\
  ("ad_id" ∈ filter (fun k => k ∉ ["date"; "spend"]) declared_columns).
Proof.
  apply (save_new_table_missing_column Sample.db
           [("date", [Some (PStr "2021-03-01")]); ("spend", [Some (PInt 1)])]
           "project.reddit.redditads_tmp" [] "ad_id").
  - apply (bool_decide_unpack _). by vm_compute.
  - apply (bool_decide_unpack _). by vm_compute.
Defined.

(** A warehouse that refuses the load. *)
Lemma save_table_staging_failure_witness :
  let db := {| project_id := "project";
               client := fun _ c => match c with
                                    | load_table_from_dataframe _ _ _ =>
                                        Some (ExternalError "Forbidden")
                                    | _ => None
                                    end |} in
  exists log',
    save_table sample_runtime db Sample.table [] = (Raise (ExternalError "Forbidden"), log') /\
    exists rest, log' = [] ++ rest /\
      Forall (fun c => forall tid text, c <> delete_table tid /\ c <> query text) rest.
Proof.
  intros db.
  exists (save_new_table db Sample.table (staging_id sample_runtime db) []).2.
  apply (save_table_staging_failure sample_runtime db Sample.table []).
  by vm_compute.
Defined.

Lemma merge_tables_error_translation_witness :
  merge_tables sample_runtime Sample.db "project.reddit.redditads_tmp" [] =
    (Raise (ValueError_job "invalid query"),
     [] ++ [ create_table "project.reddit.redditads"
               (match schema_to_bq REDDITADS_SCHEMA with Ok fs => fs | Raise _ => [] end) true;
             query (merge_query sample_runtime Sample.db "project.reddit.redditads_tmp");
             job_result ]).
Proof.
  destruct (merge_tables_error_translation sample_runtime Sample.db
              "project.reddit.redditads_tmp" []
              (match schema_to_bq REDDITADS_SCHEMA with Ok fs => fs | Raise _ => [] end))
    as [_ Hwait].
  - by vm_compute.
  - reflexivity.
  - rewrite Hwait; [|reflexivity]. by vm_compute.
Defined.

End LoaderFurtherRuns.

(** ** Frames built from records *)

Section Frames.
Import Pandas.

Variable pd : Inference.

Lemma fast_unique_elem_of seen l x :
  x ∈ fast_unique seen l <-> x ∈ l /\ x ∉ seen.
Proof.
  revert seen. induction l as [|y l IH]; intros seen; cbn.
  - rewrite elem_of_nil. tauto.
  - case_bool_decide as Hy.
    + rewrite IH, elem_of_cons. split; [tauto|]. intros [[->|Hx] Hseen]; [done|tauto].
    + rewrite !elem_of_cons, IH, elem_of_cons.
      destruct (decide (x = y)) as [->|Hne]; [tauto|]. tauto.
Qed.

Lemma fast_unique_NoDup seen l : NoDup (fast_unique seen l).
Proof.
  revert seen. induction l as [|y l IH]; intros seen; cbn; [constructor|].
  case_bool_decide; [apply IH|]. constructor; [|apply IH].
  rewrite fast_unique_elem_of, elem_of_cons. tauto.
Qed.

Lemma columns_DataFrame_of_records data :
  columns (DataFrame_of_records pd data) = fast_unique [] (concat (map (map fst) data)).
Proof.
  unfold columns, DataFrame_of_records. rewrite map_map. cbn. apply map_id.
Qed.

Lemma elem_of_concat_keys (data : list record) c :
  c ∈ concat (map (map fst) data) <-> exists r, r ∈ data /\ c ∈ map fst r.
Proof.
  rewrite list_elem_of_In, in_concat. split.
  - intros (keys & Hkeys & Hc).
    apply list_elem_of_In, list_elem_of_fmap in Hkeys as (r & -> & Hr).
    apply list_elem_of_In in Hc. eauto.
  - intros (r & Hr & Hc). exists (map fst r). split.
    + apply list_elem_of_In, list_elem_of_fmap. eauto.
    + by apply list_elem_of_In.
Qed.

Lemma DataFrame_of_records_NoDup (data : list record) :
  NoDup (columns (DataFrame_of_records pd data)).
Proof. rewrite columns_DataFrame_of_records. apply fast_unique_NoDup. Qed.

Lemma DataFrame_of_records_column (data : list record) c :
  c ∈ columns (DataFrame_of_records pd data) <-> exists r, r ∈ data /\ c ∈ map fst r.
Proof.
  rewrite columns_DataFrame_of_records, fast_unique_elem_of.
  rewrite elem_of_concat_keys, elem_of_nil. tauto.
Qed.

Lemma DataFrame_of_records_cells (data : list record) c cells :
  (c, cells) ∈ DataFrame_of_records pd data ->
  cells = convert_objects pd (map (record_get c) data).
Proof.
  unfold DataFrame_of_records. by intros (c' & [= -> ->] & _)%list_elem_of_fmap.
Qed.

(** A stored column is null exactly where the records have no value. *)
Lemma convert_objects_isna_records (data : list record) c :
  map isna (convert_objects pd (map (record_get c) data)) =
    map (fun r => isna (record_get c r)) data.
Proof. by rewrite convert_objects_isna, map_map. Qed.

Lemma existsb_not_na_map (cells : list cell) :
  existsb (fun c => negb (isna c)) cells = existsb negb (map isna cells).
Proof. induction cells as [|c cells IH]; [done|]. cbn. by rewrite IH. Qed.

Lemma existsb_not_na_records (data : list record) c :
  existsb (fun c => negb (isna c)) (convert_objects pd (map (record_get c) data)) = true ->
  exists r, r ∈ data /\ isna (record_get c r) = false.
Proof.
  rewrite existsb_not_na_map, convert_objects_isna, <- existsb_not_na_map.
  intros (cell & Hin & Hcell)%existsb_exists.
  apply list_elem_of_In, list_elem_of_fmap in Hin as (r & -> & Hr).
  exists r. split; [done|]. by apply negb_true_iff.
Qed.

Lemma filter_none {A} (P : A -> Prop) `{forall x, Decision (P x)} (l : list A) :
  (forall x, x ∈ l -> ~ P x) -> filter P l = [].
Proof.
  intros Hnone. destruct (filter P l) as [|m ms] eqn:Hf; [done|].
  assert (m ∈ filter P l) as Hm by (rewrite Hf; in_list).
  apply list_elem_of_filter in Hm as [HP Hin]. by destruct (Hnone m).
Qed.

(** In a frame with distinct labels built column by column, a label selects
    its one column. *)
Lemma filter_label_NoDup (cells : string -> list cell) (labels : list string) k :
  NoDup labels -> k ∈ labels ->
  filter (fun col : string * list cell => col.1 = k) (map (fun c => (c, cells c)) labels) =
    [(k, cells k)].
Proof.
  induction 1 as [|c labels Hc Hnodup IH]; [by intros ?%elem_of_nil|].
  cbn [map]. destruct (decide (c = k)) as [->|Hne].
  - intros _. rewrite filter_cons_True by done. f_equal.
    apply filter_none.
    intros col (c' & -> & Hin)%list_elem_of_fmap. cbn. by intros ->.
  - rewrite elem_of_cons. intros [->|Hk]; [done|].
    rewrite filter_cons_False by done. by apply IH.
Qed.

Lemma select_columns_of_records (data : list record) (key : list string) :
  (forall k, k ∈ key -> exists r, r ∈ data /\ k ∈ map fst r) ->
  getitem_labels (DataFrame_of_records pd data) key =
    Ok (map (fun k => (k, convert_objects pd (map (record_get k) data))) key).
Proof.
  intros Hpresent.
  pose proof (DataFrame_of_records_NoDup data) as Hnodup.
  pose proof (DataFrame_of_records_column data) as Hcols.
  rewrite getitem_labels_present by (intros k Hk; by apply Hcols, Hpresent).
  f_equal. unfold select_columns.
  rewrite columns_DataFrame_of_records in Hnodup.
  induction key as [|k key IH]; [done|]. cbn [map concat].
  unfold DataFrame_of_records at 1.
  rewrite (filter_label_NoDup (fun c => convert_objects pd (map (record_get c) data)));
    [|done|].
  - cbn. f_equal. apply IH. intros k' Hk'. apply Hpresent. by apply list_elem_of_further.
  - rewrite <- columns_DataFrame_of_records. apply Hcols, Hpresent. in_list.
Qed.

Lemma getitem_labels_missing (df : DataFrame) (key : list string) k :
  k ∈ key -> k ∉ columns df ->
  exists missing, getitem_labels df key = Raise (KeyError_labels missing) /\ k ∈ missing.
Proof.
  intros Hk Hmissing. unfold getitem_labels.
  assert (k ∈ filter (fun k => k ∉ columns df) key) as Hin
    by (by apply list_elem_of_filter).
  destruct (filter _ key) as [|m ms]; [by apply elem_of_nil in Hin|eauto].
Qed.

End Frames.

(** ** The lookup transforms *)

Section LookupTransforms.
Import Pandas Lookups.

Variable pd : Inference.

(** [transform_ads] keeps three columns of the frame pandas builds from the
    ads, in this order and under these labels: the column of [id] as [ad_id],
    that of [ad_group_id], that of [name] as [ad_name]; each has a cell per
    ad, null exactly where the ad has no value for the key. *)
Theorem transform_ads_projects (ads : list record) :
  (forall k, k ∈ ["id"; "ad_group_id"; "name"] -> exists r, r ∈ ads /\ k ∈ map fst r) ->
  let column := fun k => convert_objects pd (map (record_get k) ads) in
  transform_ads pd ads =
    Ok [ ("ad_id", column "id");
         ("ad_group_id", column "ad_group_id");
         ("ad_name", column "name") ] /\
  forall k, map isna (column k) = map (fun ad => isna (record_get k ad)) ads.
Proof.
  intros Hpresent column. split; [|intros k; apply convert_objects_isna_records].
  unfold transform_ads, transform_ads_frame.
  by rewrite (select_columns_of_records pd _ _ Hpresent).
Qed.

(** [transform_ad_groups] keeps four columns of the frame pandas builds from
    the ad groups: the column of [id] as [ad_group_id], those of [account_id]
    and [campaign_id], that of [name] as [ad_group_name]. *)
Theorem transform_ad_groups_projects (ad_groups : list record) :
  (forall k, k ∈ ["id"; "account_id"; "campaign_id"; "name"] ->
     exists r, r ∈ ad_groups /\ k ∈ map fst r) ->
  let column := fun k => convert_objects pd (map (record_get k) ad_groups) in
  transform_ad_groups pd ad_groups =
    Ok [ ("ad_group_id", column "id");
         ("account_id", column "account_id");
         ("campaign_id", column "campaign_id");
         ("ad_group_name", column "name") ] /\
  forall k, map isna (column k) = map (fun group => isna (record_get k group)) ad_groups.
Proof.
  intros Hpresent column. split; [|intros k; apply convert_objects_isna_records].
  unfold transform_ad_groups, transform_ad_groups_frame.
  by rewrite (select_columns_of_records pd _ _ Hpresent).
Qed.

(** [transform_campagins] keeps two columns of the frame pandas builds from
    the campaigns: the column of [id] as [campaign_id] and that of [name] as
    [campaign_name]. *)
Theorem transform_campagins_projects (campaigns : list record) :
  (forall k, k ∈ ["id"; "name"] -> exists r, r ∈ campaigns /\ k ∈ map fst r) ->
  let column := fun k => convert_objects pd (map (record_get k) campaigns) in
  transform_campagins pd campaigns =
    Ok [ ("campaign_id", column "id");
         ("campaign_name", column "name") ] /\
  forall k,
    map isna (column k) = map (fun campaign => isna (record_get k campaign)) campaigns.
Proof.
  intros Hpresent column. split; [|intros k; apply convert_objects_isna_records].
  unfold transform_campagins, transform_campagins_frame.
  by rewrite (select_columns_of_records pd _ _ Hpresent).
Qed.

(** Each lookup transform raises [KeyError] when one of the keys it selects
    is a key of no record; an empty collection is such a case. *)
Theorem lookup_transforms_missing_key (data : list record) (k : string) :
  (forall r, r ∈ data -> k ∉ map fst r) ->
  (k ∈ ["id"; "ad_group_id"; "name"] ->
     exists missing,
       transform_ads pd data = Raise (KeyError_labels missing) /\ k ∈ missing) /\
  (k ∈ ["id"; "account_id"; "campaign_id"; "name"] ->
     exists missing,
       transform_ad_groups pd data = Raise (KeyError_labels missing) /\ k ∈ missing) /\
  (k ∈ ["id"; "name"] ->
     exists missing,
       transform_campagins pd data = Raise (KeyError_labels missing) /\ k ∈ missing).
Proof.
  intros Habsent.
  assert (k ∉ columns (DataFrame_of_records pd data)) as Hmissing.
  { intros (r & Hr & Hk)%DataFrame_of_records_column. by apply (Habsent r). }
  unfold transform_ads, transform_ads_frame, transform_ad_groups,
    transform_ad_groups_frame, transform_campagins, transform_campagins_frame.
  split_and!; intros Hk;
    destruct (getitem_labels_missing _ _ k Hk Hmissing) as (missing & -> & Hin); eauto.
Qed.

End LookupTransforms.

Section LookupTransformsRuns.
Import Pandas Lookups.

Lemma transform_ads_projects_witness :
  transform_ads Sample.pandas
    [ [("id", PStr "a1"); ("name", PStr "first"); ("ad_group_id", PStr "g1");
       ("click_url", PStr "https://example.org")];
      [("name", PStr "second"); ("id", PStr "a2")] ] =
    Ok [ ("ad_id", [Some (PStr "a1"); Some (PStr "a2")]);
         ("ad_group_id", [Some (PStr "g1"); None]);
         ("ad_name", [Some (PStr "first"); Some (PStr "second")]) ].
Proof.
  destruct (transform_ads_projects Sample.pandas
    [ [("id", PStr "a1"); ("name", PStr "first"); ("ad_group_id", PStr "g1");
       ("click_url", PStr "https://example.org")];
      [("name", PStr "second"); ("id", PStr "a2")] ]) as [Hrun _].
  - intros k Hk. eexists. split; [apply list_elem_of_here|].
    revert k Hk. apply Forall_forall. apply (bool_decide_unpack _). by vm_compute.
  - rewrite Hrun. by vm_compute.
Defined.

Lemma transform_ad_groups_projects_witness :
  transform_ad_groups Sample.pandas
    [ [("id", PStr "g1"); ("account_id", PStr "t2"); ("campaign_id", PStr "c1");
       ("name", PStr "group"); ("bid", PInt 5)];
      [("id", PStr "g2"); ("account_id", PStr "t2"); ("campaign_id", PStr "c1")] ] =
    Ok [ ("ad_group_id", [Some (PStr "g1"); Some (PStr "g2")]);
         ("account_id", [Some (PStr "t2"); Some (PStr "t2")]);
         ("campaign_id", [Some (PStr "c1"); Some (PStr "c1")]);
         ("ad_group_name", [Some (PStr "group"); None]) ].
Proof.
  destruct (transform_ad_groups_projects Sample.pandas
    [ [("id", PStr "g1"); ("account_id", PStr "t2"); ("campaign_id", PStr "c1");
       ("name", PStr "group"); ("bid", PInt 5)];
      [("id", PStr "g2"); ("account_id", PStr "t2"); ("campaign_id", PStr "c1")] ])
    as [Hrun _].
  - intros k Hk. eexists. split; [apply list_elem_of_here|].
    revert k Hk. apply Forall_forall. apply (bool_decide_unpack _). by vm_compute.
  - rewrite Hrun. by vm_compute.
Defined.

Lemma transform_campagins_projects_witness :
  transform_campagins Sample.pandas [ [("name", PStr "campaign"); ("id", PStr "c1")] ] =
    Ok [ ("campaign_id", [Some (PStr "c1")]);
         ("campaign_name", [Some (PStr "campaign")]) ].
Proof.
  destruct (transform_campagins_projects Sample.pandas
              [ [("name", PStr "campaign"); ("id", PStr "c1")] ]) as [Hrun _].
  - intros k Hk. eexists. split; [apply list_elem_of_here|].
    revert k Hk. apply Forall_forall. apply (bool_decide_unpack _). by vm_compute.
  - rewrite Hrun. by vm_compute.
Defined.

Lemma lookup_transforms_missing_key_witness :
  (exists missing,
     transform_ads Sample.pandas [] = Raise (KeyError_labels missing) /\ "id" ∈ missing) /\
  (exists missing,
     transform_ad_groups Sample.pandas [] = Raise (KeyError_labels missing) /\
     "id" ∈ missing) /\
  (exists missing,
     transform_campagins Sample.pandas [] = Raise (KeyError_labels missing) /\
     "id" ∈ missing).
Proof.
  destruct (lookup_transforms_missing_key Sample.pandas [] "id")
    as (Hads & Hgroups & Hcampaigns).
  - intros r Hr. by apply elem_of_nil in Hr.
  - split_and!; [apply Hads|apply Hgroups|apply Hcampaigns]; in_list.
Defined.

End LookupTransformsRuns.

(** ** The report transform: what it returns *)

Section ReportFurther.
Import Pandas Transform.

Variable pd : Inference.

Lemma NoDup_columns_filter (P : string * list cell -> Prop) `{forall x, Decision (P x)}
    (df : DataFrame) :
  NoDup (columns df) -> NoDup (columns (filter P df)).
Proof.
  unfold columns. induction df as [|col df IH]; [done|]. cbn [map].
  intros [Hcol Hdf]%NoDup_cons. rewrite filter_cons.
  destruct (decide (P col)); [|by apply IH]. cbn [map]. apply NoDup_cons.
  split; [|by apply IH].
  intros (col' & Heq & [_ Hin]%list_elem_of_filter)%list_elem_of_fmap.
  apply Hcol, list_elem_of_fmap. eauto.
Qed.

Lemma dropna_columns_all_elem_of (df : DataFrame) col :
  col ∈ dropna_columns_all df <->
  col ∈ df /\ existsb (fun c => negb (isna c)) col.2 = true.
Proof.
  unfold dropna_columns_all. rewrite !list_elem_of_In. apply filter_In.
Qed.

Lemma NoDup_columns_dropna (df : DataFrame) :
  NoDup (columns df) -> NoDup (columns (dropna_columns_all df)).
Proof.
  unfold columns, dropna_columns_all. induction df as [|col df IH]; [done|]. cbn.
  intros [Hcol Hdf]%NoDup_cons.
  destruct (existsb _ col.2); [|by apply IH]. cbn [map]. apply NoDup_cons.
  split; [|by apply IH].
  intros (col' & Heq & Hin)%list_elem_of_fmap.
  apply list_elem_of_In, filter_In in Hin as [Hin _].
  apply Hcol, list_elem_of_fmap. exists col'. by rewrite <- list_elem_of_In in Hin.
Qed.

Lemma columns_setitem_present (df : DataFrame) name values :
  name ∈ columns df -> columns (setitem df name values) = columns df.
Proof.
  intros Hin. unfold setitem, columns. rewrite bool_decide_true by done.
  rewrite map_map. apply map_ext. intros col. by destruct (String.eqb col.1 name).
Qed.

(** What [transform_report] returns, when it returns: a frame with distinct
    labels, without the three identifier columns, in which [date] holds what
    [to_datetime] made of the column pandas built from the report's dates and
    every other column is the column pandas built from the report's values
    for its key, some record having a value there that is not null. *)
Theorem transform_report_output
    (to_datetime : list cell -> result (list cell)) (report : list record) (df : DataFrame) :
  transform_report pd to_datetime report = Ok df ->
  let column := fun k => convert_objects pd (map (record_get k) report) in
  NoDup (columns df) /\
  (forall c, c ∈ ["ad_group_id"; "campaign_id"; "account_id"] -> c ∉ columns df) /\
  (exists parsed, to_datetime (column "date") = Ok parsed /\ ("date", parsed) ∈ df) /\
  (forall c cells, (c, cells) ∈ df -> c <> "date" ->
     cells = column c /\
     map isna cells = map (fun r => isna (record_get c r)) report /\
     exists r, r ∈ report /\ isna (record_get c r) = false).
Proof.
  unfold transform_report, drop. cbv zeta.
  pose proof (DataFrame_of_records_NoDup pd report) as Hnodup.
  pose proof (DataFrame_of_records_cells pd report) as Hcells.
  set (df0 := DataFrame_of_records pd report) in *.
  destruct (filter _ ["ad_group_id"; "campaign_id"; "account_id"]); [|done].
  set (ids := ["ad_group_id"; "campaign_id"; "account_id"]).
  set (df2 := dropna_columns_all (filter (fun col => col.1 ∉ ids) df0)).
  assert (forall col, col ∈ df2 ->
            col ∈ df0 /\ (col.1 ∉ ids) /\ existsb (fun c => negb (isna c)) col.2 = true)
    as Hdf2.
  { intros col [[Hids Hin]%list_elem_of_filter Hna]%dropna_columns_all_elem_of. done. }
  assert (NoDup (columns df2)) as Hnodup2
    by (by apply NoDup_columns_dropna, NoDup_columns_filter).
  unfold getattr_column.
  destruct (filter _ df2) as [|[c date] others] eqn:Hdate; [done|].
  assert ((c, date) ∈ df2 /\ c = "date") as [Hin ->].
  { assert ((c, date) ∈ filter (fun col : string * list cell => col.1 = "date") df2) as H
      by (rewrite Hdate; in_list).
    by apply list_elem_of_filter in H as [? ?]. }
  cbn [snd]. destruct (Hdf2 _ Hin) as (Hin0 & _ & _).
  pose proof (Hcells _ _ Hin0) as ->.
  destruct (to_datetime _) as [parsed|] eqn:Hparsed; [|done].
  intros [= <-].
  assert ("date" ∈ columns df2) as Hlabel.
  { apply list_elem_of_fmap.
    by exists ("date", convert_objects pd (map (record_get "date") report)). }
  split_and!.
  - by rewrite columns_setitem_present.
  - intros c' Hc'. rewrite columns_setitem_present by done.
    intros (col & -> & Hcol)%list_elem_of_fmap. by destruct (Hdf2 _ Hcol) as (_ & ? & _).
  - exists parsed. split; [done|]. unfold setitem. rewrite bool_decide_true by done.
    apply list_elem_of_fmap.
    exists ("date", convert_objects pd (map (record_get "date") report)).
    split; [|done]. by cbn.
  - intros c' cells. unfold setitem. rewrite bool_decide_true by done.
    intros ([c'' cells''] & Heq & Hcol)%list_elem_of_fmap Hne. cbn [fst] in Heq.
    destruct (String.eqb_spec c'' "date") as [->|_]; [by injection Heq as -> _|].
    injection Heq as -> ->. destruct (Hdf2 _ Hcol) as (Hcol0 & _ & Hna).
    pose proof (Hcells _ _ Hcol0) as Hstored. cbn [snd] in Hna. subst cells''.
    split_and!; [done|apply convert_objects_isna_records|].
    by apply (existsb_not_na_records pd).
Qed.

(** When every record has a missing or null [date], [transform_report] does
    not reach the date parsing: the column is dropped with the other empty
    ones (or never existed), and reading [dataframe.date] raises
    [AttributeError]. *)
Theorem transform_report_without_dates
    (to_datetime : list cell -> result (list cell)) (report : list record) :
  (forall k, k ∈ ["ad_group_id"; "campaign_id"; "account_id"] ->
     exists r, r ∈ report /\ k ∈ map fst r) ->
  (forall r, r ∈ report -> isna (record_get "date" r) = true) ->
  transform_report pd to_datetime report = Raise AttributeError.
Proof.
  intros Hids Hdates. unfold transform_report, drop.
  pose proof (DataFrame_of_records_column pd report) as Hcols.
  pose proof (DataFrame_of_records_cells pd report) as Hcells.
  rewrite filter_none by (intros k Hk Hnot; by apply Hnot, Hcols, Hids).
  unfold getattr_column. rewrite filter_none; [done|].
  intros [c cells] [[_ Hin]%list_elem_of_filter Hna]%dropna_columns_all_elem_of.
  cbn. intros ->. rewrite (Hcells _ _ Hin) in Hna. cbn [snd] in Hna.
  apply (existsb_not_na_records pd) in Hna as (r & Hr & Hna).
  by rewrite (Hdates r Hr) in Hna.
Qed.

(** The steps on frames are those of [transform_report]. *)
Lemma transform_report_frame_of_records
    (to_datetime : list cell -> result (list cell)) (report : list record) :
  Lookups.transform_report_frame to_datetime (DataFrame_of_records pd report) =
    transform_report pd to_datetime report.
Proof. reflexivity. Qed.

End ReportFurther.

Section ReportFurtherRuns.
Import Pandas Transform.

(** A report whose [clicks] are integers with a gap: the column is stored as
    float64, so that 9007199254740993 is held as 9007199254740992. *)
Lemma transform_report_output_witness :
  transform_report Sample.pandas (fun dates => Ok dates)
    [ [ ("date", PStr "2021-03-01"); ("ad_id", PStr "a"); ("ad_group_id", PStr "g");
        ("campaign_id", PStr "c"); ("account_id", PStr "t2");
        ("clicks", PInt 9007199254740993); ("ecpm", PNone) ];
      [ ("date", PStr "2021-03-02"); ("ad_id", PStr "b"); ("ad_group_id", PStr "g");
        ("campaign_id", PStr "c"); ("account_id", PStr "t2"); ("ecpm", PNone) ] ] =
    Ok [ ("date", [Some (PStr "2021-03-01"); Some (PStr "2021-03-02")]);
         ("ad_id", [Some (PStr "a"); Some (PStr "b")]);
         ("clicks", [Some (PInt 9007199254740992); None]) ] /\
  map isna [Some (PInt 9007199254740992); None] = [false; true].
Proof.
  set (report :=
    [ [ ("date", PStr "2021-03-01"); ("ad_id", PStr "a"); ("ad_group_id", PStr "g");
        ("campaign_id", PStr "c"); ("account_id", PStr "t2");
        ("clicks", PInt 9007199254740993); ("ecpm", PNone) ];
      [ ("date", PStr "2021-03-02"); ("ad_id", PStr "b"); ("ad_group_id", PStr "g");
        ("campaign_id", PStr "c"); ("account_id", PStr "t2"); ("ecpm", PNone) ] ]).
  set (df :=
    [ ("date", [Some (PStr "2021-03-01"); Some (PStr "2021-03-02")]);
      ("ad_id", [Some (PStr "a"); Some (PStr "b")]);
      ("clicks", [Some (PInt 9007199254740992); None]) ]).
  assert (transform_report Sample.pandas (fun dates => Ok dates) report = Ok df) as Hrun
    by (by vm_compute).
  destruct (transform_report_output Sample.pandas (fun dates => Ok dates) report df Hrun)
    as (_ & _ & _ & Hcells).
  split; [exact Hrun|].
  destruct (Hcells "clicks" [Some (PInt 9007199254740992); None]) as (_ & -> & _);
    [subst df; in_list|done|by vm_compute].
Defined.

Lemma transform_report_without_dates_witness :
  transform_report Sample.pandas (fun dates => Ok dates)
    [ [ ("date", PNone); ("ad_id", PStr "a"); ("ad_group_id", PStr "g");
        ("campaign_id", PStr "c"); ("account_id", PStr "t2"); ("clicks", PInt 3) ];
      [ ("ad_id", PStr "b"); ("clicks", PInt 1) ] ] = Raise AttributeError.
Proof.
  apply transform_report_without_dates.
  - intros k Hk. eexists. split; [apply list_elem_of_here|].
    revert k Hk. apply Forall_forall. apply (bool_decide_unpack _). by vm_compute.
  - apply Forall_forall. by repeat constructor.
Defined.

End ReportFurtherRuns.

(** ** The token exchange: every outcome *)

Section TokenExchangeFurther.
Import Auth.

Variable env : Env.

(** An [error] field raises whatever status [raise_for_status] let through. *)
Lemma make_request_error_field_any_status
    (config : loc) (data : dict) (w : world)
    (cfg : dict) (client_id client_secret : pyval)
    (res : Response) (token : dict) (err : pyval) :
  heap w !! config = Some (PDict cfg) ->
  cfg !! "client_id" = Some client_id ->
  cfg !! "client_secret" = Some client_secret ->
  requests_post env (access_token_request client_id client_secret data) = Ok res ->
  ~ (400 <= status_code res < 600)%Z ->
  json res = Ok (PDict token) ->
  token !! "error" = Some err ->
  make_request env config data w =
    (Raise (HTTPError_token err),
     {| heap := heap w;
        versions := versions w;
        trace := trace w ++ [post (access_token_request client_id client_secret data)] |}).
Proof.
  intros Hcfg Hid Hsecret Hpost Hstatus Hjson Herr.
  unfold make_request, bind, deref, lift, emit. rewrite Hcfg. cbn.
  rewrite Hid, Hsecret, Hpost. cbn.
  rewrite (raise_for_status_ok _ _ Hstatus).
  rewrite Hjson. cbn. rewrite Herr. by rewrite bool_decide_true.
Qed.

(** The three ways [make_request] can end: it raises before it posts, it
    raises after the post without having changed anything, or it reaches the
    assignments (and then goes as [make_request_success] says). *)
Lemma make_request_cases (config : loc) (data : dict) (w : world) :
  (exists e, make_request env config data w = (Raise e, w)) \/
  (exists e client_id client_secret,
     make_request env config data w =
       (Raise e,
        {| heap := heap w;
           versions := versions w;
           trace := trace w ++ [post (access_token_request client_id client_secret data)] |})) \/
  (exists cfg client_id client_secret res token,
     heap w !! config = Some (PDict cfg) /\
     cfg !! "client_id" = Some client_id /\
     cfg !! "client_secret" = Some client_secret /\
     requests_post env (access_token_request client_id client_secret data) = Ok res /\
     ~ (400 <= status_code res < 600)%Z /\
     json res = Ok (PDict token) /\
     token !! "error" = None).
Proof.
  destruct (heap w !! config) as [obj|] eqn:Hobj.
  2:{ left. unfold make_request, bind, deref. rewrite Hobj. eauto. }
  destruct obj as [| | | | |cfg];
    try (left; unfold make_request, bind, deref, lift; rewrite Hobj; cbn; by eauto).
  destruct (cfg !! "client_id") as [client_id|] eqn:Hid.
  2:{ left. unfold make_request, bind, deref, lift. rewrite Hobj. cbn. rewrite Hid. eauto. }
  destruct (cfg !! "client_secret") as [client_secret|] eqn:Hsecret.
  2:{ left. unfold make_request, bind, deref, lift. rewrite Hobj. cbn.
      rewrite Hid, Hsecret. eauto. }
  right.
  destruct (requests_post env (access_token_request client_id client_secret data))
    as [res|e] eqn:Hpost.
  2:{ left. unfold make_request, bind, deref, lift, emit. rewrite Hobj. cbn.
      rewrite Hid, Hsecret. cbn. rewrite Hpost. eauto. }
  destruct (decide (400 <= status_code res < 600)%Z) as [Hstatus|Hstatus].
  { left. unfold make_request, bind, deref, lift, emit. rewrite Hobj. cbn.
    rewrite Hid, Hsecret. cbn. rewrite Hpost. cbn. unfold raise_for_status.
    destruct Hstatus as [Hlo%Z.leb_le Hhi%Z.ltb_lt]. rewrite Hlo, Hhi. cbn. eauto. }
  destruct (json res) as [token|e] eqn:Hjson.
  2:{ left. unfold make_request, bind, deref, lift, emit. rewrite Hobj. cbn.
      rewrite Hid, Hsecret. cbn. rewrite Hpost. cbn.
      rewrite (raise_for_status_ok _ _ Hstatus), Hjson. eauto. }
  destruct token as [| | |s|l|token].
  1-5: left; unfold make_request, bind, deref, lift, emit; rewrite Hobj; cbn;
       rewrite Hid, Hsecret; cbn; rewrite Hpost; cbn;
       rewrite (raise_for_status_ok _ _ Hstatus), Hjson; cbn; try by eauto.
  { destruct (str_contains "error" s); cbn; eauto. }
  { destruct (existsb _ l); cbn; eauto. }
  destruct (token !! "error") as [err|] eqn:Herr.
  { left. exists (HTTPError_token err), client_id, client_secret.
    by apply (make_request_error_field_any_status _ _ _ cfg _ _ res token). }
  right. by exists cfg, client_id, client_secret, res, token.
Qed.

(** Every outcome of [make_request], in one statement. *)
Lemma make_request_outcomes (config : loc) (data : dict) (w : world) :
  match make_request env config data w with
  | (Ok l, w') =>
      l = config /\
      exists (cfg : dict) (new_refresh new_access : pyval),
        heap w !! config = Some (PDict cfg) /\
        heap w' =
          <[config := PDict (<["access_token" := new_access]>
                               (<["refresh_token" := new_refresh]> cfg))]> (heap w) /\
        versions w' =
          PDict (<["access_token" := new_access]>
                   (<["refresh_token" := new_refresh]> cfg)) :: versions w
  | (Raise _, w') =>
      versions w' = versions w /\
      (heap w' = heap w \/
       exists cfg', heap w' !! config = Some (PDict cfg') /\
                    last (trace w') = Some (add_secret_version (PDict cfg')))
  end.
Proof.
  destruct (make_request_cases config data w)
    as [[e ->]|[(e & cid & cs & ->)|(cfg & cid & cs & res & token & Hrun)]];
    [by auto|by auto|].
  destruct Hrun as (Hcfg & Hid & Hsecret & Hpost & Hstatus & Hjson & Herr).
  rewrite (make_request_success env config data w cfg cid cs res token) by done.
  pose proof (lookup_lt_Some _ _ _ Hcfg) as Hlt.
  cbv zeta. destruct (add_secret_version_outcome env _); cbn.
  - split; [done|]. right. eexists. split; [by apply list_lookup_insert_eq|].
    by rewrite last_app_cons.
  - split; [done|]. by eexists cfg, _, _.
Qed.

(** The secret follows the outcome of the exchange. When [make_request]
    returns, it returns the dict it was given, and the newest version of the
    secret is that dict as it now is; when it raises, the secret has the
    versions it had, and the dict is unchanged too unless the failure is the
    save itself (then the dict holds tokens the secret does not). *)
Theorem make_request_secret_follows_outcome (config : loc) (data : dict) (w : world) :
  match make_request env config data w with
  | (Ok l, w') =>
      l = config /\
      exists cfg', heap w' !! config = Some (PDict cfg') /\
                   versions w' = PDict cfg' :: versions w
  | (Raise _, w') =>
      versions w' = versions w /\
      (heap w' = heap w \/
       exists cfg', heap w' !! config = Some (PDict cfg') /\
                    last (trace w') = Some (add_secret_version (PDict cfg')))
  end.
Proof.
  pose proof (make_request_outcomes config data w) as Hout.
  destruct (make_request env config data w) as [[l|e] w']; [|done].
  destruct Hout as (-> & cfg & r & a & Hcfg & Hheap & Hsaved).
  split; [done|]. eexists. split; [|exact Hsaved].
  rewrite Hheap. apply list_lookup_insert_eq. by eapply lookup_lt_Some.
Qed.

(** A successful exchange changes two entries of the credential dict and
    nothing else: [refresh_token] and [access_token] are set, every other
    key keeps its value, and no other object is touched. *)
Theorem make_request_changes_only_tokens
    (config : loc) (data : dict) (w : world) (cfg : dict) :
  heap w !! config = Some (PDict cfg) ->
  match make_request env config data w with
  | (Ok _, w') =>
      exists cfg',
        heap w' !! config = Some (PDict cfg') /\
        (forall k, k <> "refresh_token" -> k <> "access_token" -> cfg' !! k = cfg !! k) /\
        is_Some (cfg' !! "refresh_token") /\
        is_Some (cfg' !! "access_token") /\
        (forall l, l <> config -> heap w' !! l = heap w !! l)
  | (Raise _, _) => True
  end.
Proof.
  intros Hcfg. pose proof (make_request_outcomes config data w) as Hout.
  destruct (make_request env config data w) as [[l|e] w']; [|done].
  destruct Hout as (-> & cfg0 & r & a & Hcfg0 & Hheap & Hsaved).
  assert (cfg0 = cfg) as -> by congruence.
  pose proof (lookup_lt_Some _ _ _ Hcfg) as Hlt.
  eexists. rewrite Hheap. split; [by apply list_lookup_insert_eq|]. split_and!.
  - intros k Hr Ha. by rewrite !lookup_insert_ne.
  - rewrite lookup_insert_ne by done. rewrite lookup_insert_eq. eauto.
  - rewrite lookup_insert_eq. eauto.
  - intros l Hl. by rewrite list_lookup_insert_ne.
Qed.

(** Without its credentials [refresh_token] does not reach the token
    endpoint: when the stored record lacks [refresh_token], [client_id] or
    [client_secret], it raises [KeyError] for a key the record lacks, having
    read the secret and nothing more. *)
Theorem refresh_token_missing_credential
    (w : world) (cfg : dict) (older : list pyval) :
  versions w = PDict cfg :: older ->
  cfg !! "refresh_token" = None \/ cfg !! "client_id" = None \/
    cfg !! "client_secret" = None ->
  exists k,
    cfg !! k = None /\
    refresh_token env w =
      (Raise (KeyError k),
       {| heap := heap w ++ [PDict cfg];
          versions := versions w;
          trace := trace w ++ [access_secret_version] |}).
Proof.
  intros Hversions Hmissing.
  unfold refresh_token, read_token, bind, emit, alloc. cbn. rewrite Hversions.
  unfold deref at 1. cbn. rewrite lookup_app_r, Nat.sub_diag by done. cbn.
  destruct (cfg !! "refresh_token") as [prior|] eqn:Hprior; [|by exists "refresh_token"].
  cbn. unfold make_request, bind, deref, lift. cbn.
  rewrite lookup_app_r, Nat.sub_diag by done. cbn.
  destruct (cfg !! "client_id") as [cid|] eqn:Hid; [|by exists "client_id"].
  cbn. destruct (cfg !! "client_secret") as [cs|] eqn:Hsecret; [|by exists "client_secret"].
  by destruct Hmissing as [?|[?|?]].
Qed.

(** Constructing [RedditAuth] either fails and leaves the secret as it was,
    or yields an object whose record is the newest version of the secret and
    has both token keys. *)
Theorem init_record_is_saved (w : world) :
  match init env w with
  | (Ok self, w') =>
      exists cfg',
        heap w' !! config self = Some (PDict cfg') /\
        head (versions w') = Some (PDict cfg') /\
        is_Some (cfg' !! "refresh_token") /\
        is_Some (cfg' !! "access_token")
  | (Raise _, w') => versions w' = versions w
  end.
Proof.
  unfold init, refresh_token, read_token, bind, emit, alloc. cbn.
  destruct (versions w) as [|latest older] eqn:Hversions; [done|].
  unfold deref at 1. cbn. rewrite lookup_app_r, Nat.sub_diag by done. cbn.
  destruct latest as [| | | | |cfg]; try done. cbn.
  destruct (cfg !! "refresh_token") as [prior|]; [|done]. cbn.
  set (w1 := {| heap := heap w ++ [PDict cfg]; versions := PDict cfg :: older;
                trace := trace w ++ [access_secret_version] |}).
  pose proof (make_request_outcomes (length (heap w)) (refresh_grant prior) w1) as Hout.
  destruct (make_request env (length (heap w)) (refresh_grant prior) w1)
    as [[l|e] w'].
  - destruct Hout as (-> & cfg0 & r & a & Hcfg0 & Hheap & Hsaved).
    cbn. eexists. rewrite Hheap, Hsaved. split_and!.
    + apply list_lookup_insert_eq. by eapply lookup_lt_Some.
    + done.
    + rewrite lookup_insert_ne by done. rewrite lookup_insert_eq. eauto.
    + rewrite lookup_insert_eq. eauto.
  - cbn. by destruct Hout as [-> _].
Qed.

(** [refresh_token] when the exchange reaches the assignments. *)
Lemma refresh_token_success
    (w : world) (cfg : dict) (older : list pyval)
    (client_id client_secret prior : pyval) (res : Response) (token : dict) :
  versions w = PDict cfg :: older ->
  cfg !! "client_id" = Some client_id ->
  cfg !! "client_secret" = Some client_secret ->
  cfg !! "refresh_token" = Some prior ->
  requests_post env (access_token_request client_id client_secret (refresh_grant prior))
    = Ok res ->
  ~ (400 <= status_code res < 600)%Z ->
  json res = Ok (PDict token) ->
  token !! "error" = None ->
  let cfg' : dict :=
    <["access_token" :=
        py_or (dict_get token "access_token")
              (dict_get (refresh_grant prior) "access_token")]>
      (<["refresh_token" :=
          py_or (dict_get token "refresh_token")
                (dict_get (refresh_grant prior) "refresh_token")]> cfg) in
  let saved := add_secret_version_outcome env (PDict cfg') in
  refresh_token env w =
    (match saved with Some e => Raise e | None => Ok (length (heap w)) end,
     {| heap := heap w ++ [PDict cfg'];
        versions := match saved with
                    | Some _ => versions w
                    | None => PDict cfg' :: versions w
                    end;
        trace := trace w ++
                 [ access_secret_version;
                   post (access_token_request client_id client_secret (refresh_grant prior));
                   add_secret_version (PDict cfg') ] |}).
Proof.
  intros Hversions Hid Hsecret Hprior Hpost Hstatus Hjson Herr cfg' saved.
  unfold refresh_token, read_token, bind, emit, alloc. cbn. rewrite Hversions.
  unfold deref at 1. cbn. rewrite lookup_app_r, Nat.sub_diag by done. cbn.
  rewrite Hprior. cbn.
  erewrite make_request_success; eauto;
    [|by (cbn; rewrite lookup_app_r, Nat.sub_diag by done)].
  cbn. fold cfg'. fold saved. rewrite insert_app_r_alt, Nat.sub_diag by done.
  cbn. rewrite <- app_assoc. by destruct saved.
Qed.

End TokenExchangeFurther.

Section TokenExchangeFurtherRuns.
Import Auth.

Lemma make_request_changes_only_tokens_witness :
  exists w' cfg',
    make_request
      (Sample.endpoint (PDict (<["access_token" := PStr "A1"]>
                                 {[ "refresh_token" := PStr "R1" ]})))
      0 (refresh_grant (PStr "R0")) Sample.loaded = (Ok 0, w') /\
    heap w' !! 0 = Some (PDict cfg') /\
    cfg' !! "client_id" = Sample.credentials !! "client_id" /\
    cfg' !! "account_id" = Sample.credentials !! "account_id".
Proof.
  set (run := make_request
    (Sample.endpoint (PDict (<["access_token" := PStr "A1"]>
                               {[ "refresh_token" := PStr "R1" ]})))
    0 (refresh_grant (PStr "R0")) Sample.loaded).
  assert (run = (Ok 0, run.2)) as Hrun by (by vm_compute).
  pose proof (make_request_changes_only_tokens
    (Sample.endpoint (PDict (<["access_token" := PStr "A1"]>
                               {[ "refresh_token" := PStr "R1" ]})))
    0 (refresh_grant (PStr "R0")) Sample.loaded Sample.credentials eq_refl) as Hfacts.
  fold run in Hfacts. rewrite Hrun in Hfacts.
  destruct Hfacts as (cfg' & Hheap & Hkeep & _).
  exists run.2, cfg'. split_and!; [exact Hrun|exact Hheap|by apply Hkeep..].
Defined.

Lemma refresh_token_missing_credential_witness :
  exists k,
    ({[ "client_id" := PStr "id" ]} : dict) !! k = None /\
    refresh_token (Sample.endpoint (PDict ∅))
      {| heap := []; versions := [PDict {[ "client_id" := PStr "id" ]}]; trace := [] |} =
      (Raise (KeyError k),
       {| heap := [PDict {[ "client_id" := PStr "id" ]}];
          versions := [PDict {[ "client_id" := PStr "id" ]}];
          trace := [access_secret_version] |}).
Proof.
  apply (refresh_token_missing_credential (Sample.endpoint (PDict ∅))
           {| heap := []; versions := [PDict {[ "client_id" := PStr "id" ]}]; trace := [] |}
           {[ "client_id" := PStr "id" ]} []).
  - reflexivity.
  - left. by vm_compute.
Defined.

End TokenExchangeFurtherRuns.

(** ** The API client *)

Section ApiClient.
Import Api.

Variable env : Env.

Lemma api_raise_for_status_ok (res : Response) (w : world) :
  ~ (400 <= status_code res < 600)%Z -> raise_for_status res w = (Ok tt, w).
Proof.
  intros Hstatus. unfold raise_for_status.
  destruct (400 <=? status_code res)%Z eqn:Hlo; [|done].
  destruct (status_code res <? 600)%Z eqn:Hhi; [|done].
  apply Z.leb_le in Hlo. apply Z.ltb_lt in Hhi. lia.
Qed.

Lemma api_make_request_frame
    (self : RedditApi) (resource : string) (data : option pyval)
    (params : option (list (string * pyval))) (w : world) :
  exists outcome,
    make_request env self resource data params w =
      (outcome,
       {| auth := auth w;
          gets := gets w ++ [api_request env self resource data params];
          calls := calls w;
          logged := logged w |}).
Proof.
  unfold make_request, bind, emit_get, lift, raise_for_status, raise, ret. cbn.
  destruct (requests_get env _) as [res|e]; [|by eauto].
  destruct ((400 <=? status_code res)%Z && (status_code res <? 600)%Z); [by eauto|].
  destruct (json_body res) as [payload|e]; [|by eauto].
  destruct (json_getitem payload "data"); eauto.
Qed.

(** A call of [make_request] sends its request and gives what the answer
    holds. *)
Lemma api_make_request_run
    (self : RedditApi) (resource : string) (data : option pyval)
    (params : option (list (string * pyval))) (w : world) :
  make_request env self resource data params w =
    (request_outcome env (api_request env self resource data params),
     {| auth := auth w;
        gets := gets w ++ [api_request env self resource data params];
        calls := calls w;
        logged := logged w |}).
Proof.
  unfold make_request, request_outcome, bind, emit_get, lift, raise_for_status, raise, ret.
  cbn. destruct (requests_get env _) as [res|e]; [|done].
  destruct ((400 <=? status_code res)%Z && (status_code res <? 600)%Z); [done|].
  by destruct (json_body res) as [payload|e].
Qed.

Lemma api_make_request_responds
    (self : RedditApi) (resource : string) (data : option pyval)
    (params : option (list (string * pyval))) (w : world) (d : json) :
  responds env (api_request env self resource data params) d ->
  make_request env self resource data params w =
    (Ok d,
     {| auth := auth w;
        gets := gets w ++ [api_request env self resource data params];
        calls := calls w;
        logged := logged w |}).
Proof.
  intros (res & payload & Hget & Hstatus & Hbody & Hdata).
  unfold make_request, bind, emit_get, lift. cbn. rewrite Hget.
  rewrite (api_raise_for_status_ok _ _ Hstatus). by rewrite Hbody, Hdata.
Qed.

(** Whatever comes of it, a call of [make_request] sends one request, to
    [{base}/accounts/{account_id}/{resource}] with the client's headers and a
    timeout of 10, and touches neither the credentials nor the warehouse. *)
Theorem api_make_request_sends_one_request
    (self : RedditApi) (resource : string) (data : option pyval)
    (params : option (list (string * pyval))) (w : world) :
  exists outcome,
    make_request env self resource data params w =
      (outcome,
       {| auth := auth w;
          gets := gets w ++
            [ {| url := base self +:+ "/accounts/" +:+
                          py_str (py_repr env) (account_id self) +:+ "/" +:+ resource;
                 Api.params := params;
                 Api.data := data;
                 headers := api_headers self;
                 timeout := 10 |} ];
          calls := calls w;
          logged := logged w |}).
Proof.
  destruct (api_make_request_frame self resource data params w) as [outcome Hrun].
  exists outcome. exact Hrun.
Qed.

(** The envelope: on a response that is not a client or server error,
    [make_request] returns the [data] member of the JSON object, raises
    [KeyError] when the object has no such member, and [TypeError] when the
    body is no object; a status from 400 to 599 raises [HTTPError] whatever
    the body. *)
Theorem api_make_request_envelope
    (self : RedditApi) (resource : string) (data : option pyval)
    (params : option (list (string * pyval))) (w : world) (res : Response) :
  requests_get env (api_request env self resource data params) = Ok res ->
  let outcome := (make_request env self resource data params w).1 in
  ((400 <= status_code res < 600)%Z -> outcome = Raise (HTTPError_status (status_code res))) /\
  (~ (400 <= status_code res < 600)%Z ->
     (forall members,
        json_body res = Ok (JObj members) ->
        (forall k v, (k, v) ∈ members -> k <> "data") ->
        outcome = Raise (KeyError "data")) /\
     (forall before payload_data after,
        json_body res = Ok (JObj (before ++ ("data", payload_data) :: after)) ->
        (forall k v, (k, v) ∈ before -> k <> "data") ->
        outcome = Ok payload_data) /\
     (forall payload,
        json_body res = Ok payload -> (forall members, payload <> JObj members) ->
        outcome = Raise TypeError)).
Proof.
  intros Hget outcome. subst outcome.
  unfold make_request, bind, emit_get, lift. cbn. rewrite Hget. split.
  - intros [Hlo%Z.leb_le Hhi%Z.ltb_lt]. unfold raise_for_status. by rewrite Hlo, Hhi.
  - intros Hstatus. rewrite (api_raise_for_status_ok _ _ Hstatus). split_and!.
    + intros members -> Hno. cbn.
      rewrite filter_none; [done|]. intros [k v] Hin. cbn. by apply (Hno k v).
    + intros before payload_data after -> Hno. cbn. rewrite filter_app.
      rewrite filter_none by (intros [k v] Hin; cbn; by apply (Hno k v)).
      by rewrite filter_cons_True.
    + intros payload -> Hno. destruct payload; try done. by destruct (Hno members).
Qed.

(** A transform changes nothing in the world. *)
Lemma transform_pure (steps : Pandas.DataFrame -> result Pandas.DataFrame)
    (d : json) (w : world) :
  exists outcome, transform env steps d w = (outcome, w).
Proof.
  unfold transform, bind, lift.
  destruct (DataFrame_of_json env d); eauto.
Qed.

Lemma bind_run {S A B} (m : M S A) (k : A -> M S B) (s s' : S) (r : result A) :
  m s = (r, s') ->
  bind m k s = match r with Ok a => k a s' | Raise e => (Raise e, s') end.
Proof. intros Hrun. unfold bind. rewrite Hrun. by destruct r. Qed.

Lemma get_result_frame (api : RedditApi) (start_date : datetime) (w : world) :
  exists outcome sent,
    get_result env api start_date w =
      (outcome,
       {| auth := auth w; gets := gets w ++ sent;
          calls := calls w; logged := logged w |}) /\
    sent `prefix_of` result_requests env api start_date /\
    (forall df, outcome = Ok df -> sent = result_requests env api start_date).
Proof.
  unfold get_result, get_reports, get_ads, get_ad_groups, get_campaigns, result_requests.
  set (r1 := api_request env api "reports" None _).
  set (r2 := api_request env api "ads" None None).
  set (r3 := api_request env api "ad_groups" None None).
  set (r4 := api_request env api "campaigns" None None).
  destruct (api_make_request_frame api "reports" None
              (Some (report_params env start_date)) w) as [[report|e] H1];
    rewrite (bind_run _ _ _ _ _ H1).
  2:{ exists (Raise e), [r1]. split; [done|]. split; [by exists [r2; r3; r4]|done]. }
  destruct (api_make_request_frame api "ads" None None
    {| auth := auth w; gets := gets w ++ [r1]; calls := calls w; logged := logged w |})
    as [[ads|e] H2]; rewrite (bind_run _ _ _ _ _ H2);
    cbn [auth gets calls logged]; rewrite <- app_assoc; cbn [app].
  2:{ exists (Raise e), [r1; r2]. split; [done|]. split; [by exists [r3; r4]|done]. }
  destruct (api_make_request_frame api "ad_groups" None None
    {| auth := auth w; gets := gets w ++ [r1; r2]; calls := calls w; logged := logged w |})
    as [[ad_groups|e] H3]; rewrite (bind_run _ _ _ _ _ H3);
    cbn [auth gets calls logged]; rewrite <- app_assoc; cbn [app].
  2:{ exists (Raise e), [r1; r2; r3]. split; [done|]. split; [by exists [r4]|done]. }
  destruct (api_make_request_frame api "campaigns" None None
    {| auth := auth w; gets := gets w ++ [r1; r2; r3]; calls := calls w;
       logged := logged w |})
    as [[campaigns|e] H4]; rewrite (bind_run _ _ _ _ _ H4);
    cbn [auth gets calls logged]; rewrite <- app_assoc; cbn [app].
  2:{ exists (Raise e), [r1; r2; r3; r4]. split; [done|]. split; [by exists []|done]. }
  set (w4 := {| auth := auth w; gets := gets w ++ [r1; r2; r3; r4];
                calls := calls w; logged := logged w |}).
  assert (forall outcome : result Pandas.DataFrame,
            exists outcome0 sent,
              (outcome, w4) =
                (outcome0, {| auth := auth w; gets := gets w ++ sent;
                              calls := calls w; logged := logged w |}) /\
              sent `prefix_of` [r1; r2; r3; r4] /\
              (forall df, outcome0 = Ok df -> sent = [r1; r2; r3; r4])) as Hdone.
  { intros outcome. exists outcome, [r1; r2; r3; r4]. split; [done|].
    split; [by exists []|done]. }
  destruct (transform_pure (Lookups.transform_report_frame (to_datetime env)) report w4)
    as [[report_df|e] T1]; rewrite (bind_run _ _ _ _ _ T1); [|apply Hdone].
  destruct (transform_pure Lookups.transform_ads_frame ads w4)
    as [[ads_df|e] T2]; rewrite (bind_run _ _ _ _ _ T2); [|apply Hdone].
  destruct (transform_pure Lookups.transform_ad_groups_frame ad_groups w4)
    as [[ad_groups_df|e] T3]; rewrite (bind_run _ _ _ _ _ T3); [|apply Hdone].
  destruct (transform_pure Lookups.transform_campagins_frame campaigns w4)
    as [[campaigns_df|e] T4]; rewrite (bind_run _ _ _ _ _ T4); [|apply Hdone].
  unfold bind, lift, ret.
  destruct (pd_merge env report_df ads_df "ad_id") as [m1|e]; [|apply Hdone].
  destruct (pd_merge env m1 ad_groups_df "ad_group_id") as [m2|e]; [|apply Hdone].
  destruct (pd_merge env m2 campaigns_df "campaign_id") as [m3|e]; [|apply Hdone].
  destruct (sort_values env m3 "date") as [sorted|e]; apply Hdone.
Qed.

(** [get_result] sends its requests in the order reports, ads, ad groups,
    campaigns and stops at the first that fails: when the requests before the
    n-th are answered with data and the n-th is not, [get_result] raises what
    the n-th gave, having sent the first n requests and no other; when all
    four are answered with data, exactly the four were sent. It touches
    neither the credentials nor the warehouse. *)
Theorem get_result_requests (api : RedditApi) (start_date : datetime) (w : world) :
  let requests := result_requests env api start_date in
  let sent := fun n =>
    {| auth := auth w; gets := gets w ++ take n requests;
       calls := calls w; logged := logged w |} in
  (forall n req e,
     requests !! n = Some req ->
     (forall earlier, earlier ∈ take n requests ->
        exists d, request_outcome env earlier = Ok d) ->
     request_outcome env req = Raise e ->
     get_result env api start_date w = (Raise e, sent (S n))) /\
  ((forall req, req ∈ requests -> exists d, request_outcome env req = Ok d) ->
   exists outcome, get_result env api start_date w = (outcome, sent 4%nat)).
Proof.
  cbv zeta. unfold result_requests.
  set (r1 := api_request env api "reports" None _).
  set (r2 := api_request env api "ads" None None).
  set (r3 := api_request env api "ad_groups" None None).
  set (r4 := api_request env api "campaigns" None None).
  assert (forall w0 : world,
            get_reports env api start_date w0 =
              (request_outcome env r1,
               {| auth := auth w0; gets := gets w0 ++ [r1];
                  calls := calls w0; logged := logged w0 |})) as H1
    by (intros w0; apply api_make_request_run).
  assert (forall w0 : world,
            get_ads env api w0 =
              (request_outcome env r2,
               {| auth := auth w0; gets := gets w0 ++ [r2];
                  calls := calls w0; logged := logged w0 |})) as H2
    by (intros w0; apply api_make_request_run).
  assert (forall w0 : world,
            get_ad_groups env api w0 =
              (request_outcome env r3,
               {| auth := auth w0; gets := gets w0 ++ [r3];
                  calls := calls w0; logged := logged w0 |})) as H3
    by (intros w0; apply api_make_request_run).
  assert (forall w0 : world,
            get_campaigns env api w0 =
              (request_outcome env r4,
               {| auth := auth w0; gets := gets w0 ++ [r4];
                  calls := calls w0; logged := logged w0 |})) as H4
    by (intros w0; apply api_make_request_run).
  unfold get_result. split.
  - intros n req e Hreq Hearlier Hfails.
    destruct n as [|[|[|[|n]]]]; [..|done]; cbn in Hreq; injection Hreq as <-.
    + rewrite (bind_run _ _ _ _ _ (H1 w)), Hfails. done.
    + destruct (Hearlier r1) as [d1 E1]; [in_list|].
      rewrite (bind_run _ _ _ _ _ (H1 w)), E1.
      rewrite (bind_run _ _ _ _ _ (H2 _)), Hfails.
      cbn. by rewrite <- app_assoc.
    + destruct (Hearlier r1) as [d1 E1]; [in_list|].
      destruct (Hearlier r2) as [d2 E2]; [in_list|].
      rewrite (bind_run _ _ _ _ _ (H1 w)), E1.
      rewrite (bind_run _ _ _ _ _ (H2 _)), E2.
      rewrite (bind_run _ _ _ _ _ (H3 _)), Hfails.
      cbn. by rewrite <- !app_assoc.
    + destruct (Hearlier r1) as [d1 E1]; [in_list|].
      destruct (Hearlier r2) as [d2 E2]; [in_list|].
      destruct (Hearlier r3) as [d3 E3]; [in_list|].
      rewrite (bind_run _ _ _ _ _ (H1 w)), E1.
      rewrite (bind_run _ _ _ _ _ (H2 _)), E2.
      rewrite (bind_run _ _ _ _ _ (H3 _)), E3.
      rewrite (bind_run _ _ _ _ _ (H4 _)), Hfails.
      cbn. by rewrite <- !app_assoc.
  - intros Hall.
    destruct (Hall r1) as [report E1]; [in_list|].
    destruct (Hall r2) as [ads E2]; [in_list|].
    destruct (Hall r3) as [ad_groups E3]; [in_list|].
    destruct (Hall r4) as [campaigns E4]; [in_list|].
    rewrite (bind_run _ _ _ _ _ (H1 w)), E1.
    rewrite (bind_run _ _ _ _ _ (H2 _)), E2.
    rewrite (bind_run _ _ _ _ _ (H3 _)), E3.
    rewrite (bind_run _ _ _ _ _ (H4 _)), E4.
    cbn [auth gets calls logged]. rewrite <- !app_assoc. cbn [app take].
    set (w4 := {| auth := auth w; gets := gets w ++ [r1; r2; r3; r4];
                  calls := calls w; logged := logged w |}).
    destruct (transform_pure (Lookups.transform_report_frame (to_datetime env)) report w4)
      as [[report_df|e] T1]; rewrite (bind_run _ _ _ _ _ T1); [|by eauto].
    destruct (transform_pure Lookups.transform_ads_frame ads w4)
      as [[ads_df|e] T2]; rewrite (bind_run _ _ _ _ _ T2); [|by eauto].
    destruct (transform_pure Lookups.transform_ad_groups_frame ad_groups w4)
      as [[ad_groups_df|e] T3]; rewrite (bind_run _ _ _ _ _ T3); [|by eauto].
    destruct (transform_pure Lookups.transform_campagins_frame campaigns w4)
      as [[campaigns_df|e] T4]; rewrite (bind_run _ _ _ _ _ T4); [|by eauto].
    unfold bind, lift, ret.
    destruct (pd_merge env report_df ads_df "ad_id") as [m1|e]; [|by eauto].
    destruct (pd_merge env m1 ad_groups_df "ad_group_id") as [m2|e]; [|by eauto].
    destruct (pd_merge env m2 campaigns_df "campaign_id") as [m3|e]; [|by eauto].
    destruct (sort_values env m3 "date") as [sorted|e]; by eauto.
Qed.

Lemma main_try_failure
    (db : Database.BigQueryDatabase) (api : RedditApi) (start_date : datetime)
    (w w1 : world) (e : exn) :
  get_result env api start_date w = (Raise e, w1) ->
  main_try env db api start_date w =
    (if is_HTTPError e then Ok tt else Raise e,
     {| auth := auth w;
        gets := gets w1;
        calls := calls w;
        logged := if is_HTTPError e then logged w ++ [e] else logged w |}).
Proof.
  intros Hrun. destruct (get_result_frame api start_date w) as (o & sent & Hframe & _).
  rewrite Hframe in Hrun. injection Hrun as -> <-.
  unfold main_try, try_except_HTTPError. rewrite (bind_run _ _ _ _ _ Hframe).
  by destruct (is_HTTPError e).
Qed.

Lemma get_result_empty_report
    (api : RedditApi) (start_date : datetime)
    (w : world) (ads ad_groups campaigns : json) :
  responds env (api_request env api "reports" None
                  (Some (report_params env start_date))) (JList []) ->
  responds env (api_request env api "ads" None None) ads ->
  responds env (api_request env api "ad_groups" None None) ad_groups ->
  responds env (api_request env api "campaigns" None None) campaigns ->
  get_result env api start_date w =
    (Raise (KeyError_labels ["ad_group_id"; "campaign_id"; "account_id"]),
     {| auth := auth w;
        gets := gets w ++ result_requests env api start_date;
        calls := calls w;
        logged := logged w |}).
Proof.
  intros H1 H2 H3 H4.
  unfold get_result, get_reports, get_ads, get_ad_groups, get_campaigns.
  rewrite (bind_run _ _ _ _ _ (api_make_request_responds _ _ _ _ w _ H1)).
  rewrite (bind_run _ _ _ _ _ (api_make_request_responds _ _ _ _ _ _ H2)).
  rewrite (bind_run _ _ _ _ _ (api_make_request_responds _ _ _ _ _ _ H3)).
  rewrite (bind_run _ _ _ _ _ (api_make_request_responds _ _ _ _ _ _ H4)).
  cbn. by rewrite <- !app_assoc.
Qed.

(** A failure while fetching or transforming never reaches the warehouse:
    [main] makes no warehouse call; an [HTTPError] is logged and the run ends
    normally, any other exception is raised to the caller. *)
Theorem main_try_fetch_failure
    (db : Database.BigQueryDatabase) (api : RedditApi) (start_date : datetime)
    (w w1 : world) (e : exn) :
  get_result env api start_date w = (Raise e, w1) ->
  main_try env db api start_date w =
    (if is_HTTPError e then Ok tt else Raise e,
     {| auth := auth w;
        gets := gets w1;
        calls := calls w;
        logged := if is_HTTPError e then logged w ++ [e] else logged w |}).
Proof.
  intros Hrun. rewrite (main_try_failure db api start_date w w1 e Hrun).
  by destruct (is_HTTPError e).
Qed.

(** The handler of [main] does not cover the construction of the client:
    what the token refresh raises, an [HTTPError] included, is raised by
    [main], before any request for data and any warehouse call. *)
Theorem main_construction_failure
    (project_id : string) (start_date : datetime) (w : world)
    (client : list Database.call -> Database.call -> option exn)
    (e : exn) (a : Auth.world) :
  bigquery_Client env project_id = Ok client ->
  Auth.init (auth_env env) (auth w) = (Raise e, a) ->
  main env project_id start_date w =
    (Raise e, {| auth := a; gets := gets w; calls := calls w; logged := logged w |}).
Proof.
  intros Hclient Hinit.
  unfold main, BigQueryDatabase_init, RedditApi_init, bind, lift, ret, in_auth.
  by rewrite Hclient, Hinit.
Qed.

(** When the four fetches succeed and the reports endpoint returns an empty
    list, the run fails with [KeyError] for the three identifier columns:
    the exception is not an [HTTPError], so it is raised and not logged, and
    the warehouse is not called. *)
Theorem main_try_empty_report
    (db : Database.BigQueryDatabase) (api : RedditApi) (start_date : datetime)
    (w : world) (ads ad_groups campaigns : json) :
  responds env (api_request env api "reports" None
                  (Some (report_params env start_date))) (JList []) ->
  responds env (api_request env api "ads" None None) ads ->
  responds env (api_request env api "ad_groups" None None) ad_groups ->
  responds env (api_request env api "campaigns" None None) campaigns ->
  main_try env db api start_date w =
    (Raise (KeyError_labels ["ad_group_id"; "campaign_id"; "account_id"]),
     {| auth := auth w;
        gets := gets w ++ result_requests env api start_date;
        calls := calls w;
        logged := logged w |}).
Proof.
  intros H1 H2 H3 H4.
  by rewrite (main_try_failure db api start_date w _ _
                (get_result_empty_report api start_date w ads ad_groups campaigns
                   H1 H2 H3 H4)).
Qed.

(** When the token response has no usable [access_token], the client is
    still built, and every request it sends carries the header
    [Authorization: bearer None]. *)
Theorem RedditApi_init_bearer_None
    (w : world) (cfg : Py.dict) (older : list pyval)
    (client_id client_secret prior account : pyval)
    (res : Auth.Response) (token : Py.dict) :
  Auth.versions (auth w) = PDict cfg :: older ->
  cfg !! "client_id" = Some client_id ->
  cfg !! "client_secret" = Some client_secret ->
  cfg !! "refresh_token" = Some prior ->
  cfg !! "account_id" = Some account ->
  Auth.requests_post (auth_env env)
    (Auth.access_token_request client_id client_secret (Auth.refresh_grant prior)) = Ok res ->
  ~ (400 <= Auth.status_code res < 600)%Z ->
  Auth.json res = Ok (PDict token) ->
  token !! "error" = None ->
  truthy (dict_get token "access_token") = false ->
  (forall payload, Auth.add_secret_version_outcome (auth_env env) payload = None) ->
  exists api w',
    RedditApi_init env w = (Ok api, w') /\
    account_id api = account /\
    api_headers api =
      [ ("Authorization", "bearer None"); ("User-Agent", "Turing Data Extraction") ] /\
    forall resource data params w0,
      exists outcome w0',
        make_request env api resource data params w0 = (outcome, w0') /\
        exists req, last (gets w0') = Some req /\
                    ("Authorization", "bearer None") ∈ headers req.
Proof.
  intros Hversions Hid Hsecret Hprior Haccount Hpost Hstatus Hjson Herr Hfalsy Hsave.
  pose proof (refresh_token_success (auth_env env) (auth w) cfg older
                client_id client_secret prior res token
                Hversions Hid Hsecret Hprior Hpost Hstatus Hjson Herr) as Hrefresh.
  cbv zeta in Hrefresh. rewrite Hsave in Hrefresh.
  exists {| base := "https://ads-api.reddit.com/api/v2.0";
            account_id := account;
            api_headers := [ ("Authorization", "bearer None");
                             ("User-Agent", "Turing Data Extraction") ] |}.
  eexists. split; [|split; [done|split; [done|]]].
  - unfold RedditApi_init, in_auth, Auth.init.
    unfold bind at 1. rewrite (bind_run _ _ _ _ _ Hrefresh).
    cbn. unfold bind, in_auth, Auth.deref, lift, ret. cbn.
    rewrite lookup_app_r, Nat.sub_diag by done. cbn.
    rewrite !lookup_insert_ne by done. rewrite Haccount. cbn.
    rewrite lookup_insert_eq. cbn.
    unfold py_or. rewrite Hfalsy. unfold Auth.refresh_grant, dict_get.
    rewrite !lookup_insert_ne by done. rewrite lookup_empty. reflexivity.
  - intros resource data params w0.
    destruct (api_make_request_frame
                {| base := "https://ads-api.reddit.com/api/v2.0";
                   account_id := account;
                   api_headers := [ ("Authorization", "bearer None");
                                    ("User-Agent", "Turing Data Extraction") ] |}
                resource data params w0) as [outcome Hrun].
    eexists _, _. split; [exact Hrun|]. eexists. cbn. rewrite last_snoc.
    split; [done|]. cbn. in_list.
Qed.

End ApiClient.

Section ApiClientRuns.
Import Api.

Lemma api_make_request_envelope_witness :
  (make_request
     (SampleRun.env (SampleRun.token_answer 200 (PDict ∅))
        (fun _ => SampleRun.answer 200
                    (JObj [("meta", JNull); ("data", JList [JInt 1])])))
     SampleRun.api "ads" None None SampleRun.start).1 = Ok (JList [JInt 1]).
Proof.
  destruct (api_make_request_envelope
    (SampleRun.env (SampleRun.token_answer 200 (PDict ∅))
       (fun _ => SampleRun.answer 200
                   (JObj [("meta", JNull); ("data", JList [JInt 1])])))
    SampleRun.api "ads" None None SampleRun.start
    {| status_code := 200;
       json_body := Ok (JObj [("meta", JNull); ("data", JList [JInt 1])]) |})
    as [_ Hok]; [reflexivity|].
  destruct Hok as (_ & Hdata & _); [cbn; lia|].
  apply (Hdata [("meta", JNull)] (JList [JInt 1]) []); [reflexivity|].
  intros k v [= -> ->]%list_elem_of_singleton. done.
Defined.

Lemma main_try_fetch_failure_witness :
  main_try
    (SampleRun.env (SampleRun.token_answer 200 (PDict ∅))
       (fun _ => SampleRun.answer 503 JNull))
    SampleRun.db SampleRun.api SampleRun.day SampleRun.start =
    (Ok tt,
     {| auth := Sample.stored;
        gets := [ api_request
                    (SampleRun.env (SampleRun.token_answer 200 (PDict ∅))
                       (fun _ => SampleRun.answer 503 JNull))
                    SampleRun.api "reports" None
                    (Some [ ("starts_at", PStr "2021-03-01T00:00:00Z");
                            ("group_by", PList [PStr "date"; PStr "ad_id"]) ]) ];
        calls := [];
        logged := [HTTPError_status 503] |}).
Proof.
  apply (main_try_fetch_failure
    (SampleRun.env (SampleRun.token_answer 200 (PDict ∅))
       (fun _ => SampleRun.answer 503 JNull))
    SampleRun.db SampleRun.api SampleRun.day SampleRun.start
    {| auth := Sample.stored;
       gets := [ api_request
                   (SampleRun.env (SampleRun.token_answer 200 (PDict ∅))
                      (fun _ => SampleRun.answer 503 JNull))
                   SampleRun.api "reports" None
                   (Some [ ("starts_at", PStr "2021-03-01T00:00:00Z");
                           ("group_by", PList [PStr "date"; PStr "ad_id"]) ]) ];
       calls := [];
       logged := [] |}
    (HTTPError_status 503)).
  reflexivity.
Defined.

Lemma main_construction_failure_witness :
  exists a,
    main (SampleRun.env (SampleRun.token_answer 401 (PDict ∅))
            (fun _ => SampleRun.answer 200 (JObj [("data", JList [])])))
      "project" SampleRun.day SampleRun.start =
      (Raise (HTTPError_status 401),
       {| auth := a; gets := []; calls := []; logged := [] |}) /\
    is_HTTPError (HTTPError_status 401) = true.
Proof.
  eexists. split; [|reflexivity].
  apply (main_construction_failure
    (SampleRun.env (SampleRun.token_answer 401 (PDict ∅))
       (fun _ => SampleRun.answer 200 (JObj [("data", JList [])])))
    "project" SampleRun.day SampleRun.start (fun _ _ => None)).
  - reflexivity.
  - by vm_compute.
Defined.

Lemma main_try_empty_report_witness :
  main_try
    (SampleRun.env (SampleRun.token_answer 200 (PDict ∅))
       (fun _ => SampleRun.answer 200 (JObj [("data", JList [])])))
    SampleRun.db SampleRun.api SampleRun.day SampleRun.start =
    (Raise (KeyError_labels ["ad_group_id"; "campaign_id"; "account_id"]),
     {| auth := Sample.stored;
        gets := result_requests
                  (SampleRun.env (SampleRun.token_answer 200 (PDict ∅))
                     (fun _ => SampleRun.answer 200 (JObj [("data", JList [])])))
                  SampleRun.api SampleRun.day;
        calls := [];
        logged := [] |}).
Proof.
  apply (main_try_empty_report
    (SampleRun.env (SampleRun.token_answer 200 (PDict ∅))
       (fun _ => SampleRun.answer 200 (JObj [("data", JList [])])))
    SampleRun.db SampleRun.api SampleRun.day SampleRun.start
    (JList []) (JList []) (JList []));
    (eexists _, _; split; [reflexivity|]; split; [cbn; lia|]; split; reflexivity).
Defined.

Lemma RedditApi_init_bearer_None_witness :
  exists api w',
    RedditApi_init
      (SampleRun.env (SampleRun.token_answer 200 (PDict {[ "refresh_token" := PStr "R1" ]}))
         (fun _ => SampleRun.answer 200 (JObj [("data", JList [])])))
      SampleRun.start = (Ok api, w') /\
    account_id api = PStr "t2_account" /\
    api_headers api =
      [ ("Authorization", "bearer None"); ("User-Agent", "Turing Data Extraction") ].
Proof.
  destruct (RedditApi_init_bearer_None
    (SampleRun.env (SampleRun.token_answer 200 (PDict {[ "refresh_token" := PStr "R1" ]}))
       (fun _ => SampleRun.answer 200 (JObj [("data", JList [])])))
    SampleRun.start Sample.credentials [] (PStr "id") (PStr "secret") (PStr "R0")
    (PStr "t2_account")
    {| Auth.status_code := 200;
       Auth.json := Ok (PDict {[ "refresh_token" := PStr "R1" ]}) |}
    {[ "refresh_token" := PStr "R1" ]})
    as (api & w' & Hrun & Haccount & Hheaders & _).
  - reflexivity.
  - by vm_compute.
  - by vm_compute.
  - by vm_compute.
  - by vm_compute.
  - reflexivity.
  - cbn. lia.
  - reflexivity.
  - by vm_compute.
  - by vm_compute.
  - done.
  - by exists api, w'.
Defined.

End ApiClientRuns.

(** ** The rate limit of the API client *)

Section Spacing.
Import RateLimit.
Local Open Scope Z_scope.





End Spacing.

Section RateLimited.
Import Api RateLimit.
Local Open Scope Z_scope.

Variable clock : Clock.
Variable env : Env.
Variable self : RedditApi.

(** Time does not run backwards while a request is under way, and a sleep
    lasts at least as long as asked. *)
Hypothesis request_takes_time : forall sent req, 0 <= request_time clock sent req.
Hypothesis sleep_lasts : forall start secs, secs <= sleep_time clock start secs.







End RateLimited.

Section RateLimitedRuns.
Import Api RateLimit.
Local Open Scope Z_scope.



End RateLimitedRuns.
